(** * example-mock-server: the user-fetch service and its lettuce steps

    A shallow embedding of [example/services.py] and of the step
    definitions [example/features/real_server_steps.py] and
    [example/features/mock_server_steps.py], together with the parts of
    the Python 2 runtime they rest on: [str] methods, the [urlparse]
    module, the [requests.Response] attributes the code reads and
    [mock.patch.dict]. *)

From Stdlib Require Import ZArith Ascii List Bool Lia.
From Stdlib Require DecimalString DecimalPos DecimalN.
From stdpp Require Import base option list gmap strings.

(** ** Python [str] methods

    Byte strings are [string]; an index that Python reports as [-1]
    (not found) is [None] here. *)
Module PyStr.

(** [s[:n]] *)
Fixpoint take (n : nat) (s : string) : string :=
  match n, s with
  | S n', String a s' => String a (take n' s')
  | _, _ => ""
  end.

(** [s[n:]] *)
Fixpoint drop (n : nat) (s : string) : string :=
  match n, s with
  | S n', String _ s' => drop n' s'
  | _, _ => s
  end.

(** [c in s] for a one-character [c] *)
Fixpoint contains (c : ascii) (s : string) : bool :=
  match s with
  | "" => false
  | String a s' => Ascii.eqb a c || contains c s'
  end.

(** [s.find(c)] *)
Fixpoint find (c : ascii) (s : string) : option nat :=
  match s with
  | "" => None
  | String a s' => if Ascii.eqb a c then Some 0 else S <$> find c s'
  end.

(** [s.find(c, start)] with [0 <= start] *)
Definition find_from (c : ascii) (start : nat) (s : string) : option nat :=
  (fun i => start + i) <$> find c (drop start s).

(** [s.rfind(c)] *)
Fixpoint rfind (c : ascii) (s : string) : option nat :=
  match s with
  | "" => None
  | String a s' =>
      match rfind c s' with
      | Some i => Some (S i)
      | None => if Ascii.eqb a c then Some 0 else None
      end
  end.

(** [s.split(c, 1)] where [c in s]: the two parts around the first [c].
    (Without a [c] Python gives the one-element list [[s]]; every call
    site tests [c in s] first.) *)
Fixpoint split1 (c : ascii) (s : string) : string * string :=
  match s with
  | "" => ("", "")
  | String a s' =>
      if Ascii.eqb a c then ("", s')
      else let '(l, r) := split1 c s' in (String a l, r)
  end.

(** [s.split(c)] *)
Fixpoint split (c : ascii) (s : string) : list string :=
  match s with
  | "" => [""]
  | String a s' =>
      if Ascii.eqb a c then "" :: split c s'
      else match split c s' with
           | h :: t => String a h :: t
           | [] => [String a ""]
           end
  end.

(** [sep.join(l)] *)
Definition join (sep : string) (l : list string) : string :=
  String.concat sep l.

Definition lower_char (c : ascii) : ascii :=
  let n := N_of_ascii c in
  if ((65 <=? n) && (n <=? 90))%N then ascii_of_N (n + 32) else c.

(** [s.lower()] *)
Fixpoint lower (s : string) : string :=
  match s with
  | "" => ""
  | String a s' => String (lower_char a) (lower s')
  end.

(** [all(c in chars for c in s)] *)
Fixpoint all_in (chars : string) (s : string) : bool :=
  match s with
  | "" => true
  | String a s' => contains a chars && all_in chars s'
  end.

(** [s in l] for a list of strings *)
Definition mem (s : string) (l : list string) : bool :=
  existsb (String.eqb s) l.

(** truth value of a string: [bool(s)] *)
Definition truthy (s : string) : bool :=
  match s with "" => false | _ => true end.


(** ['{}'.format(n)] for a non-negative integer *)
Definition of_N (n : N) : string :=
  DecimalString.NilZero.string_of_uint (N.to_uint n).

End PyStr.


(** ** Exceptions and results *)

(** What [requests.get] raises when no response is obtained. *)
Inductive RequestError :=
  | ConnectionError (reason : string)   (* connection refused, DNS failure *)
  | ReadTimeout
  | HTTPError (msg : string)
  | MissingSchema
  | InvalidSchema
  | TooManyRedirects.

Inductive Exception :=
  | ValueError (msg : string)
  | NameError (name : string)
  | AttributeError (attr : string)
  | AssertionError
  | RequestException (e : RequestError).

(** The outcome of evaluating a Python expression or statement. *)
Inductive Res (A : Type) :=
  | Ok (a : A)
  | Raise (e : Exception).
Arguments Ok {A} a.
Arguments Raise {A} e.

#[global] Instance Res_ret : MRet Res := @Ok.
#[global] Instance Res_bind : MBind Res := fun A B f m =>
  match m with
  | Ok a => f a
  | Raise e => Raise e
  end.

#[global] Instance Res_fmap : FMap Res := fun A B f m =>
  match m with
  | Ok a => Ok (f a)
  | Raise e => Raise e
  end.

(** ** Data *)

(** [urlparse.SplitResult] and [urlparse.ParseResult] *)
Record SplitResult := mkSplit {
  s_scheme : string; s_netloc : string; s_path : string;
  s_query : string; s_fragment : string }.

Record ParseResult := mkParse {
  p_scheme : string; p_netloc : string; p_path : string;
  p_params : string; p_query : string; p_fragment : string }.

(** A decoded JSON document, as [Response.json()] returns it (numbers
    restricted to integers). *)
#[warnings="-register-all"]
Inductive PyJson :=
  | JNull
  | JBool (b : bool)
  | JInt (n : Z)
  | JStr (s : string)
  | JList (items : list PyJson)
  | JDict (items : list (string * PyJson)).

(** [requests.Response], by the attributes the program reads.
    [headers] is a [CaseInsensitiveDict]: its store maps the lower-cased
    name to the pair of the name as received and the value.  [json] is
    what [r.json()] gives: [None] when the body is not a JSON document
    (the call raises [ValueError]). *)
Record Response := mkResponse {
  status_code : Z;
  headers : gmap string (string * string);
  json : option PyJson }.

(** What one call of [requests.get] comes back with. *)
Inductive Outcome :=
  | Responds (r : Response)
  | Fails (e : RequestError).

(** The world outside the process: the outcome of the [n]-th call of
    [requests.get] (counted from 0) on a URL. *)
Definition Network := nat -> string -> Outcome.

(** ** Process state *)

Record World := mkWorld {
  (** [urlparse._parse_cache]; the key is [(url, scheme)], the other three
      components of the source's key being constant here
      ([allow_fragments] is [True], both types are [str]). *)
  parse_cache : gmap (string * string) SplitResult;
  (** [example.services.__dict__], restricted to its string globals. *)
  services_dict : gmap string string;
  (** the URLs [requests.get] was called on, oldest first *)
  outbound : list string;
  (** lettuce's [world.response]: unset, [None] or a response *)
  world_response : option (option Response);
  (** lettuce's [world.mock_server_port] *)
  world_mock_server_port : option N }.

Definition set_parse_cache (c : gmap (string * string) SplitResult) (w : World) : World :=
  mkWorld c (services_dict w) (outbound w) (world_response w) (world_mock_server_port w).
Definition set_services_dict (d : gmap string string) (w : World) : World :=
  mkWorld (parse_cache w) d (outbound w) (world_response w) (world_mock_server_port w).
Definition set_outbound (l : list string) (w : World) : World :=
  mkWorld (parse_cache w) (services_dict w) l (world_response w) (world_mock_server_port w).
Definition set_world_response (r : option (option Response)) (w : World) : World :=
  mkWorld (parse_cache w) (services_dict w) (outbound w) r (world_mock_server_port w).

(** A freshly started interpreter. *)
Definition initial_world : World := mkWorld ∅ ∅ [] None None.

(** Statements: state passing with exceptions.  A raised exception keeps
    the state reached so far. *)
Definition M (A : Type) : Type := World -> Res A * World.

#[global] Instance M_ret : MRet M := fun A a w => (Ok a, w).
#[global] Instance M_bind : MBind M := fun A B f m w =>
  match m w with
  | (Ok a, w') => f a w'
  | (Raise e, w') => (Raise e, w')
  end.

Definition raise {A} (e : Exception) : M A := fun w => (Raise e, w).
Definition lift {A} (r : Res A) : M A := fun w => (r, w).
Definition gets {A} (f : World -> A) : M A := fun w => (Ok (f w), w).
Definition modify (f : World -> World) : M unit := fun w => (Ok tt, f w).

(** [with mgr: body], for a context manager whose [__exit__] returns
    [False]: [__exit__] runs on every way out of [body], and an exception
    of [body] is raised again after it. *)
Definition with_stmt {T A} (enter : M T) (exit : T -> M unit) (body : M A) : M A :=
  fun w =>
    match enter w with
    | (Raise e, w1) => (Raise e, w1)
    | (Ok t, w1) =>
        let '(r, w2) := body w1 in
        match exit t w2 with
        | (Raise e, w3) => (Raise e, w3)
        | (Ok _, w3) => (r, w3)
        end
    end.

(** ** The [urlparse] module of the Python 2.7 standard library

    [services.py] imports [urljoin] from it.  Only the default
    [allow_fragments=True] is modelled, on [str] arguments. *)
Module Urlparse.
Import PyStr.

Definition uses_relative : list string :=
  ["ftp"; "http"; "gopher"; "nntp"; "imap"; "wais"; "file"; "https";
   "shttp"; "mms"; "prospero"; "rtsp"; "rtspu"; ""; "sftp"; "svn";
   "svn+ssh"].

Definition uses_netloc : list string :=
  ["ftp"; "http"; "gopher"; "nntp"; "telnet"; "imap"; "wais"; "file";
   "mms"; "https"; "shttp"; "snews"; "prospero"; "rtsp"; "rtspu";
   "rsync"; ""; "svn"; "svn+ssh"; "sftp"; "nfs"; "git"; "git+ssh"].

Definition uses_params : list string :=
  ["ftp"; "hdl"; "prospero"; "http"; "imap"; "https"; "shttp"; "rtsp";
   "rtspu"; "sip"; "sips"; "mms"; ""; "sftp"; "tel"].

Definition scheme_chars : string :=
  "abcdefghijklmnopqrstuvwxyzABCDEFGHIJKLMNOPQRSTUVWXYZ0123456789+-.".

Definition MAX_CACHE_SIZE : nat := 20.

(** [clear_cache()] *)
Definition clear_cache : M unit := modify (set_parse_cache ∅).

(** [_splitparams(url)].  [url.find(';')] may be [-1] in the second
    branch, where [url[:-1]] drops the last character. *)
Definition _splitparams (url : string) : string * string :=
  if contains "/" url then
    match find_from ";" (default 0 (rfind "/" url)) url with
    | None => (url, "")
    | Some i => (take i url, drop (S i) url)
    end
  else
    match find ";" url with
    | Some i => (take i url, drop (S i) url)
    | None => (take (String.length url - 1) url, url)
    end.

(** [_splitnetloc(url, start)] *)
Definition _splitnetloc (url : string) (start : nat) : string * string :=
  let delim :=
    fold_left
      (fun delim c =>
         match find_from c start url with
         | Some wdelim => Nat.min delim wdelim
         | None => delim
         end)
      ["/"; "?"; "#"]%char (String.length url) in
  (take (delim - start) (drop start url), drop delim url).

(** The test guarding [raise ValueError("Invalid IPv6 URL")]. *)
Definition unbalanced_brackets (netloc : string) : bool :=
  (contains "[" netloc && negb (contains "]" netloc))
  || (contains "]" netloc && negb (contains "[" netloc)).

(** The part of [urlsplit] after the scheme is settled: netloc,
    fragment and query, in this order.  The source has it twice, once in
    the branch for ['http'] and once for the other schemes. *)
Definition split_after_scheme (scheme url : string) : Res SplitResult :=
  '(netloc, url) ←
    (if String.eqb (take 2 url) "//" then
       let '(netloc, url) := _splitnetloc url 2 in
       if unbalanced_brackets netloc then Raise (ValueError "Invalid IPv6 URL")
       else Ok (netloc, url)
     else Ok ("", url));
  let '(url, fragment) :=
    if contains "#" url then split1 "#" url else (url, "") in
  let '(url, query) :=
    if contains "?" url then split1 "?" url else (url, "") in
  Ok (mkSplit scheme netloc url query fragment).

(** [urlsplit(url, scheme)] on a cache miss. *)
Definition urlsplit_compute (url scheme : string) : Res SplitResult :=
  match find ":" url with
  | Some (S _ as i) =>                                (* i > 0 *)
      if String.eqb (take i url) "http" then
        split_after_scheme (lower (take i url)) (drop (S i) url)
      else if all_in scheme_chars (take i url) then
        let rest := drop (S i) url in
        if negb (truthy rest) || negb (all_in "0123456789" rest) then
          split_after_scheme (lower (take i url)) rest
        else split_after_scheme scheme url
      else split_after_scheme scheme url
  | _ => split_after_scheme scheme url
  end.

(** [urlsplit(url, scheme)]: a hit in [_parse_cache] is returned as it
    is (a [SplitResult] is a non-empty tuple, hence true); on a miss the
    cache is emptied when full, and the result is stored unless
    [ValueError] was raised. *)
Definition urlsplit (url scheme : string) : M SplitResult :=
  let key := (url, scheme) in
  cached ← gets (fun w => parse_cache w !! key);
  match cached with
  | Some v => mret v
  | None =>
      full ← gets (fun w => bool_decide (MAX_CACHE_SIZE ≤ size (parse_cache w)));
      _ ← (if full : bool then clear_cache else mret tt);
      v ← lift (urlsplit_compute url scheme);
      _ ← modify (fun w => set_parse_cache (<[key := v]> (parse_cache w)) w);
      mret v
  end.

(** The second half of [urlparse]: the path parameters are split off
    the last path segment for the schemes in [uses_params]. *)
Definition parse_of_split (tuple : SplitResult) : ParseResult :=
  let '(mkSplit scheme netloc url query fragment) := tuple in
  let '(url, params) :=
    if mem scheme uses_params && contains ";" url then _splitparams url
    else (url, "") in
  mkParse scheme netloc url params query fragment.

(** [urlparse(url, scheme)] *)
Definition urlparse (url scheme : string) : M ParseResult :=
  tuple ← urlsplit url scheme;
  mret (parse_of_split tuple).

(** [urlunsplit(data)] *)
Definition urlunsplit (data : SplitResult) : string :=
  let '(mkSplit scheme netloc url query fragment) := data in
  let url :=
    if truthy netloc
       || (truthy scheme && mem scheme uses_netloc
           && negb (String.eqb (take 2 url) "//")) then
      let url :=
        if truthy url && negb (String.eqb (take 1 url) "/")
        then "/" +:+ url else url in
      "//" +:+ netloc +:+ url
    else url in
  let url := if truthy scheme then scheme +:+ ":" +:+ url else url in
  let url := if truthy query then url +:+ "?" +:+ query else url in
  let url := if truthy fragment then url +:+ "#" +:+ fragment else url in
  url.

(** [urlunparse(data)] *)
Definition urlunparse (data : ParseResult) : string :=
  let '(mkParse scheme netloc url params query fragment) := data in
  let url := if truthy params then url +:+ ";" +:+ params else url in
  urlunsplit (mkSplit scheme netloc url query fragment).

(** [segments.remove(x)]: drops the first [x]. *)
Fixpoint list_remove (x : string) (segments : list string) : list string :=
  match segments with
  | [] => []
  | y :: t => if String.eqb y x then t else y :: list_remove x t
  end.

(** [while '.' in segments: segments.remove('.')]; one round per unit
    of [fuel]. *)
Fixpoint remove_dots (fuel : nat) (segments : list string) : list string :=
  match fuel with
  | O => segments
  | S fuel' =>
      if mem "." segments then remove_dots fuel' (list_remove "." segments)
      else segments
  end.

(** The inner [while i < n] of the ['..'] loop, entered at index [i]
    with [prev = segments[i-1]] and [rest = segments[i:]]: the first [i]
    below [n = len(segments) - 1] whose segment is ['..'] while the one
    before it is neither [''] nor ['..']. *)
Fixpoint find_dotdot (prev : string) (rest : list string) (i : nat) : option nat :=
  match rest with
  | cur :: (_ :: _) as tl =>
      if String.eqb cur ".." && negb (mem prev [""; ".."]) then Some i
      else find_dotdot cur tl (S i)
  | _ => None
  end.

(** One round of [while 1]: [del segments[i-1:i+1]] at the index found,
    or [None] when the inner loop falls through to [else: break]. *)
Definition collapse_step (segments : list string) : option (list string) :=
  match segments with
  | [] => None
  | prev :: rest =>
      i ← find_dotdot prev rest 1;
      Some (List.firstn (i - 1) segments ++ List.skipn (i + 1) segments)
  end.

Fixpoint collapse_dotdots (fuel : nat) (segments : list string) : list string :=
  match fuel with
  | O => segments
  | S fuel' =>
      match collapse_step segments with
      | Some segments' => collapse_dotdots fuel' segments'
      | None => segments
      end
  end.

(** The treatment of [segments] in [urljoin], from
    [if segments[-1] == '.'] to the last [elif].  Both loops shorten the
    list in each round, so its length is fuel enough. *)
Definition resolve_segments (segments : list string) : list string :=
  let segments :=
    if bool_decide (last segments = Some ".")
    then removelast segments ++ [""] else segments in
  let segments := remove_dots (length segments) segments in
  let segments := collapse_dotdots (length segments) segments in
  if bool_decide (segments = [""; ".."]) then
    removelast segments ++ [""]
  else if bool_decide (2 ≤ length segments) && bool_decide (last segments = Some "..") then
    List.firstn (length segments - 2) segments ++ [""]
  else segments.

(** [urljoin] once both arguments are parsed: [b] is
    [urlparse(base)] and [u] is [urlparse(url, bscheme)]. *)
Definition join_parsed (url : string) (b u : ParseResult) : string :=
  let '(mkParse bscheme bnetloc bpath bparams bquery bfragment) := b in
  let '(mkParse scheme netloc path params query fragment) := u in
  if negb (String.eqb scheme bscheme) || negb (mem scheme uses_relative) then
    url
  else if mem scheme uses_netloc && truthy netloc then
    urlunparse (mkParse scheme netloc path params query fragment)
  else
    let netloc := if mem scheme uses_netloc then bnetloc else netloc in
    if String.eqb (take 1 path) "/" then
      urlunparse (mkParse scheme netloc path params query fragment)
    else if negb (truthy path) && negb (truthy params) then
      let query := if negb (truthy query) then bquery else query in
      urlunparse (mkParse scheme netloc bpath bparams query fragment)
    else
      let segments := removelast (split "/" bpath) ++ split "/" path in
      let segments := resolve_segments segments in
      urlunparse (mkParse scheme netloc (join "/" segments)
                    params query fragment).

(** [urljoin(base, url)] *)
Definition urljoin (base url : string) : M string :=
  if negb (truthy base) then mret url
  else if negb (truthy url) then mret base
  else
    b ← urlparse base "";
    u ← urlparse url (p_scheme b);
    mret (join_parsed url b u).

(** What [urljoin] computes when every [urlsplit] misses the cache. *)
Definition urljoin_compute (base url : string) : Res string :=
  if negb (truthy base) then Ok url
  else if negb (truthy url) then Ok base
  else
    b ← parse_of_split <$> urlsplit_compute base "";
    u ← parse_of_split <$> urlsplit_compute url (p_scheme b);
    Ok (join_parsed url b u).

End Urlparse.

(** ** The [requests] library, as far as the program uses it *)
Module Requests.

(** [Response.raise_for_status()]: [HTTPError] for a client error
    ([400 <= status_code < 500]) or a server error
    ([500 <= status_code < 600]). *)
Definition raise_for_status (r : Response) : Res unit :=
  if ((400 <=? status_code r) && (status_code r <? 500))%Z then
    Raise (RequestException (HTTPError "Client Error"))
  else if ((500 <=? status_code r) && (status_code r <? 600))%Z then
    Raise (RequestException (HTTPError "Server Error"))
  else Ok tt.

(** [Response.ok]: whether [raise_for_status()] passes. *)
Definition ok (r : Response) : bool :=
  match raise_for_status r with
  | Ok _ => true
  | Raise _ => false
  end.

(** [key in headers] and [headers[key]] of a [CaseInsensitiveDict] *)
Definition header (key : string) (h : gmap string (string * string)) : option string :=
  snd <$> h !! PyStr.lower key.

(** A header store built from name/value pairs, later pairs winning. *)
Definition make_headers (l : list (string * string)) : gmap string (string * string) :=
  fold_left (fun h '(k, v) => <[PyStr.lower k := (k, v)]> h) l ∅.

(** [Response.json()] *)
Definition json_ (r : Response) : M PyJson :=
  match json r with
  | Some v => mret v
  | None => raise (ValueError "No JSON object could be decoded")
  end.

Section Get.
Variable net : Network.

(** [requests.get(url)]: one call out; the response, or the
    exception of the failed transport.  The call is the unit that is
    counted: what the library does inside it (following redirects to the
    final response) is part of the one call. *)
Definition get (url : string) : M Response := fun w =>
  let w' := set_outbound (outbound w ++ [url]) w in
  match net (length (outbound w)) url with
  | Responds r => (Ok r, w')
  | Fails e => (Raise (RequestException e), w')
  end.
End Get.

(** *** One call of [requests.get] on the wire

    [get] above takes the outcome of a call from the network as a whole.
    Below is what the library does within one call, request by request,
    and the network that results from it. *)

                                    (* sent; the answer [r] is a redirect, which the
                                       library follows to the URL [target] that its
                                       [Location] header resolves to *)








End Requests.

(** ** [mock.patch.dict] on [example.services.__dict__] *)
Module Mock.

(** [_patch_dict]: keeps a copy of the dictionary and updates it with
    [values]; the copy is what [__enter__] leaves in the patcher. *)
Definition _patch_dict (values : gmap string string) : M (gmap string string) :=
  original ← gets services_dict;
  _ ← modify (set_services_dict (values ∪ original));
  mret original.

(** [_unpatch_dict]: clears the dictionary and puts the copy back. *)
Definition _unpatch_dict (original : gmap string string) : M unit :=
  _ ← modify (set_services_dict ∅);
  modify (fun w => set_services_dict (original ∪ services_dict w) w).

(** [with patch.dict('example.services.__dict__', values): body] *)
Definition patch_dict {A} (values : gmap string string) (body : M A) : M A :=
  with_stmt (_patch_dict values) _unpatch_dict body.

End Mock.

(** ** [nose.tools] assertions *)
Module Nose.

Definition assert_true (b : bool) : M unit :=
  if b then mret tt else raise AssertionError.

(** [assert_dict_contains_subset(expected, actual)] on response
    headers: every expected key is in [actual] with the same value. *)
Definition assert_dict_contains_subset
    (expected : list (string * string)) (actual : gmap string (string * string)) : M unit :=
  assert_true
    (forallb (fun '(key, value) =>
                match Requests.header key actual with
                | Some v => String.eqb value v
                | None => false
                end) expected).

(** [assert_is_instance(obj, list)] *)
Definition assert_is_instance_list (obj : PyJson) : M unit :=
  assert_true (match obj with JList _ => true | _ => false end).

(** [assert_list_equal(first, [])] *)
Definition assert_list_equal_empty (first : PyJson) : M unit :=
  assert_true (match first with JList [] => true | _ => false end).

End Nose.

(** ** [example/services.py] *)
Module Services.

(** Reading and binding a global of the module. *)
Definition load_global (name : string) : M string := fun w =>
  match services_dict w !! name with
  | Some v => (Ok v, w)
  | None => (Raise (NameError name), w)
  end.

Definition store_global (name value : string) : M unit :=
  modify (fun w => set_services_dict (<[name := value]> (services_dict w)) w).

(** [getattr(settings, name)] on the Django settings, given by their
    string attributes. *)
Definition getattr (settings : gmap string string) (name : string) : M string :=
  match settings !! name with
  | Some v => mret v
  | None => raise (AttributeError name)
  end.

(** The module body, run when [example.services] is imported:
    [BASE_URL = getattr(settings, 'BASE_URL')] and
    [USERS_URL = urljoin(BASE_URL, 'users')]. *)
Definition import_module (settings : gmap string string) : M unit :=
  v ← getattr settings "BASE_URL";
  _ ← store_global "BASE_URL" v;
  base ← load_global "BASE_URL";
  v ← Urlparse.urljoin base "users";
  store_global "USERS_URL" v.

Section GetUsers.
Variable net : Network.

Definition get_users : M (option Response) :=
  url ← load_global "USERS_URL";
  response ← Requests.get net url;
  if Requests.ok response then mret (Some response)
  else mret None.
End GetUsers.

End Services.

(** ** Step definitions *)

(** Reading lettuce's [world.response] and an attribute of it: an unset
    attribute of [world], or any attribute of [None], is an
    [AttributeError]. *)
Definition load_world_response (attr : string) : M Response := fun w =>
  match world_response w with
  | None => (Raise (AttributeError "response"), w)
  | Some None => (Raise (AttributeError attr), w)
  | Some (Some r) => (Ok r, w)
  end.

Definition content_type_json : list (string * string) :=
  [("Content-Type", "application/json; charset=utf-8")].

(** [example/features/real_server_steps.py] *)
Module RealServerSteps.
Section Steps.
Variable net : Network.

(** [I send a real request] *)
Definition send_request : M unit :=
  r ← Services.get_users net;
  modify (set_world_response (Some r)).

(** [I get a real response] *)
Definition get_response : M unit :=
  r ← load_world_response "headers";
  _ ← Nose.assert_dict_contains_subset content_type_json (headers r);
  r ← load_world_response "ok";
  _ ← Nose.assert_true (Requests.ok r);
  r ← load_world_response "json";
  v ← Requests.json_ r;
  Nose.assert_is_instance_list v.
End Steps.
End RealServerSteps.

(** [example/features/mock_server_steps.py] *)
Module MockServerSteps.
Section Steps.
Variable net : Network.

(** ['http://localhost:{port}/users'.format(port=port)] *)
Definition mock_users_url_of (port : N) : string :=
  "http://localhost:" +:+ PyStr.of_N port +:+ "/users".

(** [I send a mock request] *)
Definition send_request : M unit :=
  port ← (fun w => match world_mock_server_port w with
                   | Some p => (Ok p, w)
                   | None => (Raise (AttributeError "mock_server_port"), w)
                   end);
  let mock_users_url := mock_users_url_of port in
  Mock.patch_dict {["USERS_URL" := mock_users_url]}
    (r ← Services.get_users net;
     modify (set_world_response (Some r))).

(** [I get a mock response] *)
Definition get_response : M unit :=
  r ← load_world_response "headers";
  _ ← Nose.assert_dict_contains_subset content_type_json (headers r);
  r ← load_world_response "ok";
  _ ← Nose.assert_true (Requests.ok r);
  r ← load_world_response "json";
  v ← Requests.json_ r;
  Nose.assert_list_equal_empty v.
End Steps.
End MockServerSteps.

(** * Properties *)

(** ** Vocabulary of the statements *)

(** The invariant of [urlparse._parse_cache]: an entry holds what
    [urlsplit] computes for its key. *)
Definition cache_ok (w : World) : Prop :=
  ∀ url scheme v,
    parse_cache w !! (url, scheme) = Some v →
    Urlparse.urlsplit_compute url scheme = Ok v.

(** Two states that differ at most in the parse cache. *)
Definition same_but_cache (w w' : World) : Prop :=
  services_dict w' = services_dict w
  ∧ outbound w' = outbound w
  ∧ world_response w' = world_response w
  ∧ world_mock_server_port w' = world_mock_server_port w.

(** [s] has none of the characters of [chars]. *)
Fixpoint free_of (chars : string) (s : string) : bool :=
  match s with
  | "" => true
  | String a s' => negb (PyStr.contains a chars) && free_of chars s'
  end.

(** A relative path segment: not empty, and free of the characters that
    would start a scheme, a further segment, a query, a fragment or path
    parameters. *)
Definition plain_segment (seg : string) : bool :=
  PyStr.truthy seg && free_of ":/?#;" seg.

(** No segment is ['.'] or ['..']. *)
Definition dot_free (segments : list string) : bool :=
  forallb (fun s => negb (String.eqb s ".") && negb (String.eqb s "..")) segments.

(** What [get_users] makes of the outcome of its call. *)
Definition classify (o : Outcome) : Res (option Response) :=
  match o with
  | Responds r => Ok (if Requests.ok r then Some r else None)
  | Fails e => Raise (RequestException e)
  end.

(** A network on which every call has the same outcome. *)
Definition always (o : Outcome) : Network := fun _ _ => o.

(** The process after [example.services] was imported under settings
    with [BASE_URL = base]. *)
Definition loaded (base : string) : World :=
  (Services.import_module {["BASE_URL" := base]} initial_world).2.

Definition json_content_type : string := "application/json; charset=utf-8".

(** The canned answer of the mock server: status 200, the JSON content
    type and the body [[]]. *)
Definition users_response : Response :=
  mkResponse 200 (Requests.make_headers [("Content-Type", json_content_type)])
    (Some (JList [])).

(** A success without headers, whose body is the JSON object [{}]. *)
Definition bare_response : Response := mkResponse 200 ∅ (Some (JDict [])).

(** Answers that carry a status and nothing else. *)
Definition status_response (status : Z) : Response := mkResponse status ∅ None.

(** A host, with or without a port: not empty, and free of the
    characters that end the network location and of brackets. *)
Definition host_like (host : string) : bool :=
  PyStr.truthy host && free_of "/?#[]" host.

(** A directory path: empty or starting with ['/'], free of ['?'], ['#']
    and [';'], and without ['.'] and ['..'] segments. *)
Definition dir_like (dir : string) : bool :=
  (negb (PyStr.truthy dir) || String.eqb (PyStr.take 1 dir) "/")
  && free_of "?#;" dir
  && dot_free (PyStr.split "/" dir).

(** The parse cache holds at most [MAX_CACHE_SIZE] entries. *)
Definition cache_bounded (w : World) : Prop :=
  size (parse_cache w) ≤ Urlparse.MAX_CACHE_SIZE.

(** The state after [n] invocations of [get_users], whatever their
    outcomes. *)
Definition invocations (net : Network) (n : nat) (w : World) : World :=
  Nat.iter n (fun w => (Services.get_users net w).2) w.

(** What the two [get_response] steps have in common, from
    [world.response] to the call of [json()]: the value to be checked, or
    the exception raised before. *)
Definition checked_json (w : World) : Res PyJson :=
  match world_response w with
  | None => Raise (AttributeError "response")
  | Some None => Raise (AttributeError "headers")
  | Some (Some r) =>
      match Requests.header "Content-Type" (headers r) with
      | Some v =>
          if negb (String.eqb json_content_type v) then Raise AssertionError
          else if negb (Requests.ok r) then Raise AssertionError
          else match json r with
               | Some j => Ok j
               | None => Raise (ValueError "No JSON object could be decoded")
               end
      | None => Raise AssertionError
      end
  end.


(** ** The model on documented joins *)

(** The two joins of the library's documentation, and joins of RFC 1808
    that the library's own tests check. *)
Example urljoin_doc_sibling :
  (Urlparse.urljoin "http://www.cwi.nl/%7Eguido/Python.html" "FAQ.html" initial_world).1
  = Ok "http://www.cwi.nl/%7Eguido/FAQ.html".
Proof. reflexivity. Qed.

Example urljoin_doc_netloc :
  (Urlparse.urljoin "http://www.cwi.nl/%7Eguido/Python.html"
     "//www.python.org/%7Eguido" initial_world).1
  = Ok "http://www.python.org/%7Eguido".
Proof. reflexivity. Qed.

Example urljoin_rfc1808 :
  map (fun url => (Urlparse.urljoin "http://a/b/c/d;p?q#f" url initial_world).1)
    ["g"; "./g"; "g/"; "/g"; "//g"; "?y"; "g?y"; "#s"; "g;x"; "."; "..";
     "../g"; "../.."; "../../g"; "../../../g"; "/./g"; "g/./h"; "g/../h";
     "g:h"; "http:g"]
  = map Ok
    ["http://a/b/c/g"; "http://a/b/c/g"; "http://a/b/c/g/"; "http://a/g";
     "http://g"; "http://a/b/c/d;p?y"; "http://a/b/c/g?y";
     "http://a/b/c/d;p?q#s"; "http://a/b/c/g;x"; "http://a/b/c/";
     "http://a/b/"; "http://a/b/g"; "http://a/"; "http://a/g";
     "http://a/../g"; "http://a/./g"; "http://a/b/c/g/h"; "http://a/b/c/h";
     "g:h"; "http://a/b/c/g"].
Proof. reflexivity. Qed.

Example urlsplit_port_is_no_scheme :
  (Urlparse.urlparse "localhost:8000" "" initial_world).1
  = Ok (mkParse "" "" "localhost:8000" "" "" "").
Proof. reflexivity. Qed.

(** The second evaluation is answered from the cache. *)
Example urlsplit_cached :
  let w := (Urlparse.urlsplit "http://localhost:8000/" "" initial_world).2 in
  parse_cache w !! ("http://localhost:8000/", "")
  = Some (mkSplit "http" "localhost:8000" "/" "" "")
  ∧ Urlparse.urlsplit "http://localhost:8000/" "" w
    = (Ok (mkSplit "http" "localhost:8000" "/" "" ""), w).
Proof. split; reflexivity. Qed.

(** ** The parse cache never shows *)

Lemma cache_ok_initial : cache_ok initial_world.
Proof. intros url scheme v H. simpl in H. by rewrite lookup_empty in H. Qed.

Lemma cache_ok_set_services_dict d w : cache_ok w → cache_ok (set_services_dict d w).
Proof. done. Qed.

Lemma cache_ok_set_outbound l w : cache_ok w → cache_ok (set_outbound l w).
Proof. done. Qed.

Lemma cache_ok_set_world_response r w : cache_ok w → cache_ok (set_world_response r w).
Proof. done. Qed.

Lemma same_but_cache_refl w : same_but_cache w w.
Proof. by repeat split. Qed.

Lemma same_but_cache_trans w1 w2 w3 :
  same_but_cache w1 w2 → same_but_cache w2 w3 → same_but_cache w1 w3.
Proof.
  intros (a1 & b1 & c1 & d1) (a2 & b2 & c2 & d2).
  repeat split; congruence.
Qed.

Lemma urlsplit_run url scheme w :
  cache_ok w →
  ∃ w', Urlparse.urlsplit url scheme w = (Urlparse.urlsplit_compute url scheme, w')
        ∧ cache_ok w' ∧ same_but_cache w w'.
Proof.
  intros Hok. unfold Urlparse.urlsplit, mbind, M_bind, gets. simpl.
  destruct (parse_cache w !! (url, scheme)) as [v|] eqn:Hhit.
  - exists w. rewrite (Hok _ _ _ Hhit). auto using same_but_cache_refl.
  - set (w1 := (if bool_decide (Urlparse.MAX_CACHE_SIZE ≤ size (parse_cache w))
                then Urlparse.clear_cache else mret tt) w).
    assert (Hw1 : ∃ w1', w1 = (Ok tt, w1') ∧ cache_ok w1' ∧ same_but_cache w w1').
    { subst w1. case_bool_decide.
      - eexists; split; [reflexivity|]. split; [|by repeat split].
        intros ??? Hl. simpl in Hl. by rewrite lookup_empty in Hl.
      - exists w. auto using same_but_cache_refl. }
    destruct Hw1 as (w1' & -> & Hok1 & Hsame1).
    unfold lift. destruct (Urlparse.urlsplit_compute url scheme) as [v|e] eqn:Hc.
    + eexists; split; [reflexivity|]. split.
      * intros url' scheme' v'. simpl.
        destruct (decide ((url, scheme) = (url', scheme'))) as [[= <- <-]|Hne].
        -- rewrite lookup_insert_eq. congruence.
        -- rewrite lookup_insert_ne by done. apply Hok1.
      * destruct Hsame1 as (? & ? & ? & ?). by repeat split.
    + exists w1'. auto.
Qed.

Lemma urlparse_run url scheme w :
  cache_ok w →
  ∃ w', Urlparse.urlparse url scheme w
          = (Urlparse.parse_of_split <$> Urlparse.urlsplit_compute url scheme, w')
        ∧ cache_ok w' ∧ same_but_cache w w'.
Proof.
  intros Hok. destruct (urlsplit_run url scheme w Hok) as (w' & Hrun & Hok' & Hsame).
  exists w'. split; [|done].
  unfold Urlparse.urlparse, mbind, M_bind. rewrite Hrun.
  by destruct (Urlparse.urlsplit_compute url scheme).
Qed.

Lemma urljoin_run base url w :
  cache_ok w →
  ∃ w', Urlparse.urljoin base url w = (Urlparse.urljoin_compute base url, w')
        ∧ cache_ok w' ∧ same_but_cache w w'.
Proof.
  intros Hok. unfold Urlparse.urljoin, Urlparse.urljoin_compute.
  destruct (negb (PyStr.truthy base)).
  { exists w. auto using same_but_cache_refl. }
  destruct (negb (PyStr.truthy url)).
  { exists w. auto using same_but_cache_refl. }
  destruct (urlparse_run base "" w Hok) as (w1 & Hrun1 & Hok1 & Hsame1).
  unfold mbind at 1, M_bind. rewrite Hrun1.
  destruct (Urlparse.urlsplit_compute base "") as [sb|e]; simpl.
  - destruct (urlparse_run url (p_scheme (Urlparse.parse_of_split sb)) w1 Hok1)
      as (w2 & Hrun2 & Hok2 & Hsame2).
    unfold mbind at 1, M_bind. rewrite Hrun2.
    destruct (Urlparse.urlsplit_compute url _) as [su|e]; simpl.
    + exists w2. eauto using same_but_cache_trans.
    + exists w2. eauto using same_but_cache_trans.
  - exists w1. auto.
Qed.

Lemma urljoin_result base url w :
  cache_ok w → (Urlparse.urljoin base url w).1 = Urlparse.urljoin_compute base url.
Proof.
  intros Hok. destruct (urljoin_run base url w Hok) as (w' & -> & _). done.
Qed.

Lemma urljoin_cache_ok base url w :
  cache_ok w → cache_ok (Urlparse.urljoin base url w).2.
Proof.
  intros Hok. destruct (urljoin_run base url w Hok) as (w' & -> & Hok' & _). done.
Qed.

Lemma urljoin_frame base url w :
  cache_ok w → same_but_cache w (Urlparse.urljoin base url w).2.
Proof.
  intros Hok. destruct (urljoin_run base url w Hok) as (w' & -> & _ & Hsame). done.
Qed.

Lemma urlparse_result url scheme w :
  cache_ok w →
  (Urlparse.urlparse url scheme w).1
  = Urlparse.parse_of_split <$> Urlparse.urlsplit_compute url scheme.
Proof.
  intros Hok. destruct (urlparse_run url scheme w Hok) as (w' & -> & _). done.
Qed.

(** ** Strings *)

Lemma free_of_contains chars s c :
  free_of chars s = true → PyStr.contains c chars = true → PyStr.contains c s = false.
Proof.
  intros Hfree Hc. induction s as [|a s IH]; simpl in *; [done|].
  apply andb_true_iff in Hfree as [Ha Hs].
  rewrite (IH Hs), orb_false_r.
  destruct (Ascii.eqb a c) eqn:E; [|done].
  apply Ascii.eqb_eq in E. subst a. by rewrite Hc in Ha.
Qed.

Lemma free_of_weaken chars chars' s :
  (∀ c, PyStr.contains c chars' = true → PyStr.contains c chars = true) →
  free_of chars s = true → free_of chars' s = true.
Proof.
  intros Hsub. induction s as [|a s IH]; simpl; [done|].
  intros [Ha Hs]%andb_true_iff. rewrite (IH Hs), andb_true_r.
  apply negb_true_iff in Ha. apply negb_true_iff.
  destruct (PyStr.contains a chars') eqn:E; [|done].
  apply Hsub in E. congruence.
Qed.

Lemma find_not_contains c s : PyStr.contains c s = false → PyStr.find c s = None.
Proof.
  induction s as [|a s IH]; simpl; [done|].
  intros [Ha Hs]%orb_false_iff. by rewrite Ha, (IH Hs).
Qed.

Lemma split_not_contains c s : PyStr.contains c s = false → PyStr.split c s = [s].
Proof.
  induction s as [|a s IH]; simpl; [done|].
  intros [Ha Hs]%orb_false_iff. by rewrite Ha, (IH Hs).
Qed.

Lemma take1_not_contains c s :
  PyStr.contains c s = false → String.eqb (PyStr.take 1 s) (String c "") = false.
Proof.
  destruct s as [|a s]; simpl; [done|].
  intros [Ha Hs]%orb_false_iff. by rewrite Ha.
Qed.

Lemma take2_not_contains c s :
  PyStr.contains c s = false →
  String.eqb (PyStr.take 2 s) (String c (String c "")) = false.
Proof.
  destruct s as [|a s]; simpl; [done|].
  intros [Ha Hs]%orb_false_iff. by rewrite Ha.
Qed.

Lemma take_length s : PyStr.take (String.length s) s = s.
Proof. induction s as [|a s IH]; simpl; by rewrite ?IH. Qed.

Lemma drop_length s : PyStr.drop (String.length s) s = "".
Proof. by induction s as [|a s IH]. Qed.

Lemma append_cons a s t : String a s +:+ t = String a (s +:+ t).
Proof. reflexivity. Qed.

Lemma append_nil_l t : "" +:+ t = t.
Proof. reflexivity. Qed.

Lemma append_nil_r s : s +:+ "" = s.
Proof. induction s as [|a s IH]; [done|]. by rewrite append_cons, IH. Qed.

Lemma append_assoc s1 s2 s3 : (s1 +:+ s2) +:+ s3 = s1 +:+ (s2 +:+ s3).
Proof. induction s1 as [|a s1 IH]; [done|]. by rewrite !append_cons, IH. Qed.

Lemma free_of_append chars s1 s2 :
  free_of chars (s1 +:+ s2) = free_of chars s1 && free_of chars s2.
Proof.
  induction s1 as [|a s1 IH]; [done|]. rewrite append_cons. simpl.
  by rewrite IH, andb_assoc.
Qed.

Lemma length_append s1 s2 :
  String.length (s1 +:+ s2) = (String.length s1 + String.length s2)%nat.
Proof. induction s1 as [|a s1 IH]; [done|]. rewrite append_cons. simpl. by rewrite IH. Qed.

Lemma contains_append c s1 s2 :
  PyStr.contains c (s1 +:+ s2) = PyStr.contains c s1 || PyStr.contains c s2.
Proof.
  induction s1 as [|a s1 IH]; [done|]. rewrite append_cons. simpl.
  by rewrite IH, orb_assoc.
Qed.

Lemma find_append_r c s1 s2 :
  PyStr.contains c s1 = false →
  PyStr.find c (s1 +:+ s2) = (fun i => String.length s1 + i)%nat <$> PyStr.find c s2.
Proof.
  induction s1 as [|a s1 IH].
  - intros _. rewrite append_nil_l. by destruct (PyStr.find c s2).
  - intros [Ha Hs]%orb_false_iff. rewrite append_cons. simpl.
    rewrite Ha, (IH Hs). by destruct (PyStr.find c s2).
Qed.

Lemma take_append s1 s2 : PyStr.take (String.length s1) (s1 +:+ s2) = s1.
Proof.
  induction s1 as [|a s1 IH]; [by destruct s2|].
  rewrite append_cons. simpl. by rewrite IH.
Qed.

Lemma drop_append s1 s2 : PyStr.drop (String.length s1) (s1 +:+ s2) = s2.
Proof. induction s1 as [|a s1 IH]; [done|]. by rewrite append_cons. Qed.

Lemma split_nonempty c s : PyStr.split c s ≠ [].
Proof.
  destruct s as [|a s]; simpl; [done|].
  destruct (Ascii.eqb a c); [done|]. by destruct (PyStr.split c s).
Qed.

Lemma split_snoc_sep c q :
  PyStr.split c (q +:+ String c "") = PyStr.split c q ++ [""].
Proof.
  induction q as [|a q IH].
  - rewrite append_nil_l. simpl. by rewrite Ascii.eqb_refl.
  - rewrite append_cons. simpl. rewrite IH.
    destruct (Ascii.eqb a c); [done|].
    pose proof (split_nonempty c q). by destruct (PyStr.split c q).
Qed.

Lemma join_split c s : PyStr.join (String c "") (PyStr.split c s) = s.
Proof.
  unfold PyStr.join. induction s as [|a s IH]; simpl; [done|].
  pose proof (split_nonempty c s) as Hne.
  destruct (Ascii.eqb_spec a c) as [->|_].
  - destruct (PyStr.split c s) as [|h t] eqn:E; [done|].
    change (String.concat (String c "") ("" :: h :: t))
      with ("" +:+ String c "" +:+ String.concat (String c "") (h :: t)).
    by rewrite IH.
  - destruct (PyStr.split c s) as [|h t] eqn:E; [done|].
    destruct t as [|h' t]; simpl in *; [by rewrite IH|].
    by rewrite <- IH.
Qed.

Lemma join_snoc sep l x :
  l ≠ [] → PyStr.join sep (l ++ [x]) = PyStr.join sep l +:+ sep +:+ x.
Proof.
  unfold PyStr.join. induction l as [|h t IH]; [done|]. intros _.
  destruct t as [|h' t]; [done|].
  change (String.concat sep ((h :: h' :: t) ++ [x]))
    with (h +:+ sep +:+ String.concat sep ((h' :: t) ++ [x])).
  rewrite IH by done.
  change (String.concat sep (h :: h' :: t))
    with (h +:+ sep +:+ String.concat sep (h' :: t)).
  by rewrite !append_assoc.
Qed.

(** ** The segment loops of [urljoin] run to their end *)

Lemma list_remove_length x l :
  PyStr.mem x l = true → S (length (Urlparse.list_remove x l)) = length l.
Proof.
  unfold PyStr.mem. induction l as [|y l IH]; simpl; [done|].
  rewrite String.eqb_sym. destruct (String.eqb y x); simpl; [done|].
  intros H. by rewrite (IH H).
Qed.

Lemma remove_dots_complete n l :
  (length l ≤ n)%nat → PyStr.mem "." (Urlparse.remove_dots n l) = false.
Proof.
  revert l. induction n as [|n IH]; intros l Hn; simpl.
  - by destruct l; [|simpl in Hn; lia].
  - destruct (PyStr.mem "." l) eqn:E; [|done].
    apply IH. apply list_remove_length in E. lia.
Qed.

Lemma find_dotdot_bounds prev rest i0 i :
  Urlparse.find_dotdot prev rest i0 = Some i →
  (i0 ≤ i ∧ i + 2 ≤ i0 + length rest)%nat.
Proof.
  revert prev i0. induction rest as [|cur tl IH]; intros prev i0; simpl; [done|].
  destruct tl as [|nxt tl]; [done|].
  case_match.
  - intros [= <-]. simpl. lia.
  - intros Hi. apply IH in Hi. simpl in *. lia.
Qed.

Lemma collapse_step_length l l' :
  Urlparse.collapse_step l = Some l' → (length l' + 2 = length l)%nat.
Proof.
  destruct l as [|prev rest]; [done|]. unfold Urlparse.collapse_step.
  destruct (Urlparse.find_dotdot prev rest 1) as [i|] eqn:E; [|done].
  intros [= <-]. apply find_dotdot_bounds in E.
  rewrite length_app, length_firstn, length_skipn. simpl length in *. lia.
Qed.

Lemma collapse_dotdots_complete n l :
  (length l ≤ n)%nat →
  Urlparse.collapse_step (Urlparse.collapse_dotdots n l) = None.
Proof.
  revert l. induction n as [|n IH]; intros l Hn; simpl.
  - by destruct l; [|simpl in Hn; lia].
  - destruct (Urlparse.collapse_step l) as [l'|] eqn:E; [|done].
    apply IH. apply collapse_step_length in E. lia.
Qed.

(** On segments without ['.'] and ['..'] nothing is resolved. *)
Lemma dot_free_mem l x :
  dot_free l = true → x = "." ∨ x = ".." → PyStr.mem x l = false.
Proof.
  unfold PyStr.mem. induction l as [|y l IH]; simpl; [done|].
  intros [[Hy1 Hy2]%andb_true_iff Hl]%andb_true_iff Hx.
  rewrite (IH Hl Hx), orb_false_r.
  apply negb_true_iff in Hy1, Hy2. rewrite String.eqb_sym.
  by destruct Hx as [-> | ->].
Qed.

Lemma dot_free_find_dotdot prev rest i0 :
  dot_free rest = true → Urlparse.find_dotdot prev rest i0 = None.
Proof.
  revert prev i0. induction rest as [|cur tl IH]; intros prev i0; simpl; [done|].
  intros [[_ Hc]%andb_true_iff Hl]%andb_true_iff.
  destruct tl as [|nxt tl]; [done|].
  apply negb_true_iff in Hc. rewrite Hc. simpl. by apply IH.
Qed.

Lemma dot_free_last l x :
  dot_free l = true → x = "." ∨ x = ".." → last l ≠ Some x.
Proof.
  intros Hl Hx Hlast. apply last_Some_elem_of in Hlast.
  pose proof (dot_free_mem l x Hl Hx) as Hm.
  unfold PyStr.mem in Hm.
  assert (existsb (String.eqb x) l = true); [|congruence].
  apply existsb_exists. exists x. split; [by apply list_elem_of_In|].
  apply String.eqb_refl.
Qed.

Lemma resolve_segments_dot_free l :
  dot_free l = true → Urlparse.resolve_segments l = l.
Proof.
  intros Hl. unfold Urlparse.resolve_segments.
  rewrite (bool_decide_eq_false_2 (last l = Some ".")) by (apply dot_free_last; auto).
  assert (Hrd : Urlparse.remove_dots (length l) l = l).
  { destruct (length l); simpl; [done|]. by rewrite dot_free_mem by auto. }
  rewrite Hrd.
  assert (Hcd : Urlparse.collapse_dotdots (length l) l = l).
  { destruct (length l); simpl; [done|].
    destruct l as [|prev rest]; [done|]. unfold Urlparse.collapse_step.
    simpl in Hl. apply andb_true_iff in Hl as [_ Hl].
    by rewrite dot_free_find_dotdot. }
  rewrite Hcd.
  rewrite (bool_decide_eq_false_2 (l = [""; ".."])).
  2:{ intros ->. discriminate Hl. }
  rewrite (bool_decide_eq_false_2 (last l = Some "..")) by (apply dot_free_last; auto).
  by rewrite andb_false_r.
Qed.

(** ** Joining a plain segment *)

Lemma Res_fmap_Ok {A B} (f : A → B) (x : A) : f <$> Ok x = Ok (f x).
Proof. reflexivity. Qed.

Lemma Res_bind_Ok {A B} (f : A → Res B) (x : A) : Ok x ≫= f = f x.
Proof. reflexivity. Qed.

Lemma plain_segment_contains seg c :
  plain_segment seg = true → PyStr.contains c ":/?#;" = true →
  PyStr.contains c seg = false.
Proof.
  intros [_ Hfree]%andb_true_iff. by apply free_of_contains.
Qed.

Lemma urlsplit_compute_plain seg scheme :
  plain_segment seg = true →
  Urlparse.urlsplit_compute seg scheme = Ok (mkSplit scheme "" seg "" "").
Proof.
  intros Hseg. unfold Urlparse.urlsplit_compute.
  rewrite find_not_contains by (by apply plain_segment_contains).
  unfold Urlparse.split_after_scheme.
  rewrite (take2_not_contains "/") by (by apply plain_segment_contains).
  simpl.
  rewrite (plain_segment_contains seg "#" Hseg eq_refl).
  by rewrite (plain_segment_contains seg "?" Hseg eq_refl).
Qed.

Lemma parse_of_split_plain seg scheme :
  plain_segment seg = true →
  Urlparse.parse_of_split (mkSplit scheme "" seg "" "") = mkParse scheme "" seg "" "" "".
Proof.
  intros Hseg. unfold Urlparse.parse_of_split.
  by rewrite (plain_segment_contains seg ";" Hseg eq_refl), andb_false_r.
Qed.

Lemma uses_relative_uses_netloc scheme :
  PyStr.mem scheme Urlparse.uses_relative = true →
  PyStr.mem scheme Urlparse.uses_netloc = true.
Proof.
  unfold PyStr.mem. intros (x & Hin & Heq)%existsb_exists.
  apply String.eqb_eq in Heq. subst x.
  simpl in Hin. repeat (destruct Hin as [<- | Hin]; [reflexivity|]). done.
Qed.

Lemma urlsplit_compute_empty scheme :
  Urlparse.urlsplit_compute "" scheme = Ok (mkSplit scheme "" "" "" "").
Proof. reflexivity. Qed.

Lemma urljoin_compute_plain base seg b :
  Urlparse.parse_of_split <$> Urlparse.urlsplit_compute base "" = Ok b →
  p_scheme b ≠ "" →
  PyStr.mem (p_scheme b) Urlparse.uses_relative = true →
  plain_segment seg = true →
  Urlparse.urljoin_compute base seg
  = Ok (Urlparse.urlunparse
          (mkParse (p_scheme b) (p_netloc b)
             (PyStr.join "/"
                (Urlparse.resolve_segments
                   (removelast (PyStr.split "/" (p_path b)) ++ [seg])))
             "" "" "")).
Proof.
  intros Hb Habs Hrel Hseg. unfold Urlparse.urljoin_compute.
  destruct base as [|c base'].
  { rewrite urlsplit_compute_empty in Hb. injection Hb as <-. done. }
  pose proof Hseg as [Hne _]%andb_true_iff.
  change (PyStr.truthy (String c base')) with true. rewrite Hne. cbv beta iota delta [negb].
  rewrite Hb, Res_bind_Ok.
  rewrite urlsplit_compute_plain, Res_fmap_Ok, parse_of_split_plain, Res_bind_Ok by done.
  f_equal.
  destruct b as [bscheme bnetloc bpath bparams bquery bfragment].
  unfold Urlparse.join_parsed. cbn [p_scheme p_netloc p_path] in *.
  rewrite String.eqb_refl, Hrel, (uses_relative_uses_netloc _ Hrel).
  pose proof (plain_segment_contains _ "/" Hseg eq_refl) as Hslash.
  rewrite (take1_not_contains "/" seg Hslash).
  rewrite Hne. cbn [negb orb andb PyStr.truthy].
  by rewrite (split_not_contains "/" seg Hslash).
Qed.

Lemma urljoin_compute_other_scheme base seg b :
  Urlparse.parse_of_split <$> Urlparse.urlsplit_compute base "" = Ok b →
  p_scheme b ≠ "" →
  PyStr.mem (p_scheme b) Urlparse.uses_relative = false →
  plain_segment seg = true →
  Urlparse.urljoin_compute base seg = Ok seg.
Proof.
  intros Hb Habs Hrel Hseg. unfold Urlparse.urljoin_compute.
  destruct base as [|c base'].
  { rewrite urlsplit_compute_empty in Hb. injection Hb as <-. done. }
  pose proof Hseg as [Hne _]%andb_true_iff.
  change (PyStr.truthy (String c base')) with true. rewrite Hne. cbv beta iota delta [negb].
  rewrite Hb, Res_bind_Ok.
  rewrite urlsplit_compute_plain, Res_fmap_Ok, parse_of_split_plain, Res_bind_Ok by done.
  f_equal.
  destruct b as [bscheme bnetloc bpath bparams bquery bfragment].
  unfold Urlparse.join_parsed. cbn [p_scheme] in *.
  by rewrite Hrel, orb_true_r.
Qed.

(** ** The Users URL of an http base URL *)

Lemma splitnetloc_http host path :
  free_of "/?#[]" host = true →
  free_of "?#" path = true →
  path = "" ∨ (∃ p, path = String "/" p) →
  Urlparse._splitnetloc ("//" +:+ host +:+ path) 2 = (host, path).
Proof.
  intros Hhost Hpath Hshape.
  assert (Hq : PyStr.find "?" (host +:+ path) = None).
  { apply find_not_contains. rewrite contains_append.
    by rewrite (free_of_contains _ host "?" Hhost), (free_of_contains _ path "?" Hpath). }
  assert (Hh : PyStr.find "#" (host +:+ path) = None).
  { apply find_not_contains. rewrite contains_append.
    by rewrite (free_of_contains _ host "#" Hhost), (free_of_contains _ path "#" Hpath). }
  unfold Urlparse._splitnetloc, PyStr.find_from.
  rewrite !append_cons, append_nil_l. simpl PyStr.drop. simpl fold_left.
  rewrite Hq, Hh.
  rewrite (find_append_r "/") by (by apply (free_of_contains _ host "/" Hhost)).
  simpl String.length. rewrite length_append.
  destruct Hshape as [-> | [p ->]].
  - simpl. rewrite append_nil_r, Nat.add_0_r, Nat.sub_0_r.
    by rewrite take_length, drop_length.
  - simpl. rewrite Nat.add_0_r, Nat.sub_0_r.
    rewrite Nat.min_r by lia.
    by rewrite take_append, drop_append.
Qed.

Lemma split_after_scheme_http scheme host path :
  free_of "/?#[]" host = true →
  free_of "?#" path = true →
  path = "" ∨ (∃ p, path = String "/" p) →
  Urlparse.split_after_scheme scheme ("//" +:+ host +:+ path)
  = Ok (mkSplit scheme host path "" "").
Proof.
  intros Hhost Hpath Hshape. unfold Urlparse.split_after_scheme.
  rewrite (splitnetloc_http host path Hhost Hpath Hshape).
  change (PyStr.take 2 ("//" +:+ host +:+ path)) with "//".
  change (String.eqb "//" "//") with true. cbv iota.
  unfold Urlparse.unbalanced_brackets.
  rewrite (free_of_contains _ host "[" Hhost eq_refl).
  rewrite (free_of_contains _ host "]" Hhost eq_refl).
  cbn [andb orb negb]. rewrite Res_bind_Ok.
  rewrite (free_of_contains _ path "#" Hpath eq_refl).
  by rewrite (free_of_contains _ path "?" Hpath eq_refl).
Qed.

Lemma urlsplit_compute_http scheme host path :
  scheme = "http" ∨ scheme = "https" →
  free_of "/?#[]" host = true →
  free_of "?#" path = true →
  path = "" ∨ (∃ p, path = String "/" p) →
  Urlparse.urlsplit_compute (scheme +:+ "://" +:+ host +:+ path) ""
  = Ok (mkSplit scheme host path "" "").
Proof.
  intros Hscheme Hhost Hpath Hshape.
  pose proof (split_after_scheme_http "http" host path Hhost Hpath Hshape) as H1.
  pose proof (split_after_scheme_http "https" host path Hhost Hpath Hshape) as H2.
  destruct Hscheme as [-> | ->]; unfold Urlparse.urlsplit_compute.
  - exact H1.
  - exact H2.
Qed.

Lemma http_uses_relative scheme :
  scheme = "http" ∨ scheme = "https" →
  scheme ≠ "" ∧ PyStr.mem scheme Urlparse.uses_relative = true
  ∧ PyStr.mem scheme Urlparse.uses_netloc = true.
Proof. by intros [-> | ->]. Qed.

(** A base URL without a path: the Users URL is the base URL followed by
    ['/users']. *)
Lemma urljoin_compute_http_host scheme host :
  scheme = "http" ∨ scheme = "https" →
  host_like host = true →
  Urlparse.urljoin_compute (scheme +:+ "://" +:+ host) "users"
  = Ok ((scheme +:+ "://" +:+ host) +:+ "/users").
Proof.
  intros Hscheme [Hne Hhost]%andb_true_iff.
  destruct (http_uses_relative scheme Hscheme) as (Habs & Hrel & Hnet).
  rewrite (urljoin_compute_plain _ "users" (mkParse scheme host "" "" "" "")); try done.
  2:{ rewrite <- (append_nil_r host) at 1.
      rewrite (urlsplit_compute_http scheme host "") by auto.
      rewrite Res_fmap_Ok. unfold Urlparse.parse_of_split.
      cbn [PyStr.contains]. by rewrite andb_false_r. }
  f_equal. cbn [p_scheme p_netloc p_path].
  change (PyStr.join "/" _) with "users".
  unfold Urlparse.urlunparse, Urlparse.urlunsplit. cbn [PyStr.truthy].
  rewrite Hne. cbn [orb].
  replace (PyStr.truthy scheme) with true by (by destruct Hscheme as [-> | ->]).
  change (PyStr.truthy "users" && negb (String.eqb (PyStr.take 1 "users") "/")) with true.
  cbv iota. by rewrite !append_assoc.
Qed.

(** A base URL that ends with ['/']: the Users URL is the base URL
    followed by ['users']. *)
Lemma urljoin_compute_http_dir scheme host dir :
  scheme = "http" ∨ scheme = "https" →
  host_like host = true →
  dir_like dir = true →
  Urlparse.urljoin_compute (scheme +:+ "://" +:+ host +:+ dir +:+ "/") "users"
  = Ok ((scheme +:+ "://" +:+ host +:+ dir +:+ "/") +:+ "users").
Proof.
  intros Hscheme [Hne Hhost]%andb_true_iff
    [[Hshape Hfree]%andb_true_iff Hdots]%andb_true_iff.
  destruct (http_uses_relative scheme Hscheme) as (Habs & Hrel & Hnet).
  assert (Hpath : free_of "?#;" (dir +:+ "/") = true).
  { by rewrite free_of_append, Hfree. }
  assert (Hstart : ∃ p, dir +:+ "/" = String "/" p).
  { destruct dir as [|a dir]; [by exists ""|].
    simpl in Hshape. destruct (Ascii.eqb_spec a "/") as [->|Hne'].
    - exists (dir +:+ "/"). by rewrite append_cons.
    - done. }
  rewrite (urljoin_compute_plain _ "users" (mkParse scheme host (dir +:+ "/") "" "" ""));
    try done.
  2:{ assert (free_of "?#" (dir +:+ "/") = true).
      { apply (free_of_weaken "?#;"); [|done]. intros c. cbn [PyStr.contains].
        destruct (Ascii.eqb "?" c), (Ascii.eqb "#" c); done. }
      rewrite (urlsplit_compute_http scheme host (dir +:+ "/")) by auto.
      rewrite Res_fmap_Ok. unfold Urlparse.parse_of_split.
      by rewrite (free_of_contains _ _ ";" Hpath eq_refl), andb_false_r. }
  f_equal. cbn [p_scheme p_netloc p_path].
  rewrite split_snoc_sep, removelast_last.
  rewrite resolve_segments_dot_free.
  2:{ unfold dot_free in *. by rewrite forallb_app, Hdots. }
  rewrite join_snoc by apply split_nonempty. rewrite join_split.
  unfold Urlparse.urlunparse, Urlparse.urlunsplit. cbn [PyStr.truthy].
  rewrite Hne. cbn [orb].
  replace (PyStr.truthy scheme) with true by (by destruct Hscheme as [-> | ->]).
  destruct Hstart as [p Hp].
  assert (Hurl : dir +:+ "/" +:+ "users" = String "/" (p +:+ "users")).
  { by rewrite <- append_assoc, Hp, append_cons. }
  rewrite Hurl.
  change (PyStr.take 1 (String "/" (p +:+ "users"))) with "/".
  cbn [PyStr.truthy negb andb].
  rewrite <- Hurl. rewrite !append_assoc. f_equal.
Qed.

(** ** The last path component of an http base URL *)

Lemma split_append_sep c q t :
  PyStr.split c (q +:+ String c t) = PyStr.split c q ++ PyStr.split c t.
Proof.
  induction q as [|a q IH].
  - rewrite append_nil_l. simpl. by rewrite Ascii.eqb_refl.
  - rewrite append_cons. simpl. rewrite IH.
    destruct (Ascii.eqb a c); [done|].
    pose proof (split_nonempty c q). by destruct (PyStr.split c q).
Qed.

Lemma plain_segment_path_chars seg :
  plain_segment seg = true → free_of "/?#;" seg = true.
Proof.
  intros [_ Hfree]%andb_true_iff. apply (free_of_weaken ":/?#;"); [|done].
  intros c. cbn [PyStr.contains].
  destruct (Ascii.eqb ":" c), (Ascii.eqb "/" c), (Ascii.eqb "?" c),
    (Ascii.eqb "#" c), (Ascii.eqb ";" c); done.
Qed.

Lemma http_path_shape dir last :
  dir_like dir = true →
  free_of "/?#;" last = true →
  free_of "?#;" (dir +:+ "/" +:+ last) = true
  ∧ free_of "?#" (dir +:+ "/" +:+ last) = true
  ∧ ∃ p, dir +:+ "/" +:+ last = String "/" p.
Proof.
  intros [[Hshape Hfree]%andb_true_iff _]%andb_true_iff Hlast.
  assert (H1 : free_of "?#;" (dir +:+ "/" +:+ last) = true).
  { rewrite !free_of_append, Hfree. cbn [free_of PyStr.contains andb].
    apply (free_of_weaken "/?#;"); [|done]. intros c. cbn [PyStr.contains].
    destruct (Ascii.eqb "/" c), (Ascii.eqb "?" c), (Ascii.eqb "#" c),
      (Ascii.eqb ";" c); done. }
  split; [done|]. split.
  - apply (free_of_weaken "?#;"); [|done]. intros c. cbn [PyStr.contains].
    destruct (Ascii.eqb "?" c), (Ascii.eqb "#" c); done.
  - destruct dir as [|a dir]; [by exists last|].
    simpl in Hshape. destruct (Ascii.eqb_spec a "/") as [->|Hne']; [|done].
    exists (dir +:+ "/" +:+ last). by rewrite append_cons.
Qed.

Lemma urlparse_compute_http scheme host dir last :
  scheme = "http" ∨ scheme = "https" →
  host_like host = true →
  dir_like dir = true →
  free_of "/?#;" last = true →
  Urlparse.parse_of_split
    <$> Urlparse.urlsplit_compute (scheme +:+ "://" +:+ host +:+ dir +:+ "/" +:+ last) ""
  = Ok (mkParse scheme host (dir +:+ "/" +:+ last) "" "" "").
Proof.
  intros Hscheme [_ Hhost]%andb_true_iff Hdir Hlast.
  destruct (http_path_shape dir last Hdir Hlast) as (Hpath & Hpath' & Hstart).
  rewrite (urlsplit_compute_http scheme host (dir +:+ "/" +:+ last)) by auto.
  rewrite Res_fmap_Ok. unfold Urlparse.parse_of_split.
  by rewrite (free_of_contains _ _ ";" Hpath eq_refl), andb_false_r.
Qed.

Lemma urlunparse_http scheme host path :
  scheme = "http" ∨ scheme = "https" →
  PyStr.truthy host = true →
  (∃ p, path = String "/" p) →
  Urlparse.urlunparse (mkParse scheme host path "" "" "")
  = scheme +:+ "://" +:+ host +:+ path.
Proof.
  intros Hscheme Hne [p ->].
  unfold Urlparse.urlunparse, Urlparse.urlunsplit. cbn [PyStr.truthy].
  rewrite Hne. cbn [orb].
  replace (PyStr.truthy scheme) with true by (by destruct Hscheme as [-> | ->]).
  change (PyStr.take 1 (String "/" p)) with "/".
  cbn [PyStr.truthy negb andb]. change (String.eqb "/" "/") with true.
  cbn [negb]. f_equal.
Qed.

(** The segment takes the place of the last path component, as strings. *)
Lemma urljoin_compute_http_last scheme host dir last seg :
  scheme = "http" ∨ scheme = "https" →
  host_like host = true →
  dir_like dir = true →
  free_of "/?#;" last = true →
  plain_segment seg = true →
  dot_free [seg] = true →
  Urlparse.urljoin_compute (scheme +:+ "://" +:+ host +:+ dir +:+ "/" +:+ last) seg
  = Ok (scheme +:+ "://" +:+ host +:+ dir +:+ "/" +:+ seg).
Proof.
  intros Hscheme Hhost Hdir Hlast Hseg Hdot.
  destruct (http_uses_relative scheme Hscheme) as (Habs & Hrel & Hnet).
  rewrite (urljoin_compute_plain _ seg (mkParse scheme host (dir +:+ "/" +:+ last) "" "" ""));
    try done.
  2:{ by apply urlparse_compute_http. }
  f_equal. cbn [p_scheme p_netloc p_path].
  pose proof Hdir as [_ Hdots]%andb_true_iff.
  pose proof Hhost as [Hne _]%andb_true_iff.
  change ("/" +:+ last) with (String "/" last). rewrite split_append_sep.
  rewrite (split_not_contains "/" last) by (by apply (free_of_contains "/?#;")).
  rewrite removelast_last, resolve_segments_dot_free.
  2:{ unfold dot_free in *. by rewrite forallb_app, Hdots. }
  rewrite join_snoc by apply split_nonempty. rewrite join_split.
  apply urlunparse_http; [done..|].
  destruct (http_path_shape dir seg Hdir (plain_segment_path_chars seg Hseg))
    as (_ & _ & Hp). done.
Qed.

(** ** [get_users] *)

Lemma get_users_run net w url :
  services_dict w !! "USERS_URL" = Some url →
  Services.get_users net w
  = (classify (net (length (outbound w)) url), set_outbound (outbound w ++ [url]) w).
Proof.
  intros Hurl.
  unfold Services.get_users, mbind, M_bind, Services.load_global, Requests.get.
  rewrite Hurl. unfold classify.
  destruct (net (length (outbound w)) url) as [r|e]; [|done].
  by destruct (Requests.ok r).
Qed.

Lemma get_users_unbound net w :
  services_dict w !! "USERS_URL" = None →
  Services.get_users net w = (Raise (NameError "USERS_URL"), w).
Proof.
  intros Hurl. unfold Services.get_users, mbind, M_bind, Services.load_global.
  by rewrite Hurl.
Qed.

Lemma get_users_services_dict net w :
  services_dict (Services.get_users net w).2 = services_dict w.
Proof.
  destruct (services_dict w !! "USERS_URL") as [url|] eqn:E.
  - by rewrite (get_users_run net w url E).
  - by rewrite (get_users_unbound net w E).
Qed.

Lemma get_users_cache_ok net w : cache_ok w → cache_ok (Services.get_users net w).2.
Proof.
  intros Hok. destruct (services_dict w !! "USERS_URL") as [url|] eqn:E.
  - by rewrite (get_users_run net w url E).
  - by rewrite (get_users_unbound net w E).
Qed.

Lemma ok_spec r :
  Requests.ok r = true ↔ ¬ (400 ≤ status_code r < 600)%Z.
Proof.
  unfold Requests.ok, Requests.raise_for_status.
  destruct (400 <=? status_code r)%Z eqn:E1, (status_code r <? 500)%Z eqn:E2,
    (500 <=? status_code r)%Z eqn:E3, (status_code r <? 600)%Z eqn:E4;
    simpl; split; intros H; try done; try lia.
  all: exfalso; apply H; lia.
Qed.

Lemma ok_false_spec r :
  Requests.ok r = false ↔ (400 ≤ status_code r < 600)%Z.
Proof.
  pose proof (ok_spec r) as H. destruct (Requests.ok r).
  - split; [done|]. intros Hs. by apply H in Hs.
  - split; [|done]. intros _.
    destruct (decide (400 ≤ status_code r < 600)%Z) as [|Hn]; [done|].
    by apply H in Hn.
Qed.

(** ** The steps that check a response *)

Section StepChecks.
#[local] Arguments String.eqb : simpl never.

Lemma send_request_run net w url :
services_dict w !! "USERS_URL" = Some url →
RealServerSteps.send_request net w
= match classify (net (length (outbound w)) url) with
  | Ok v => (Ok tt, set_world_response (Some v) (set_outbound (outbound w ++ [url]) w))
  | Raise e => (Raise e, set_outbound (outbound w ++ [url]) w)
  end.
Proof.
intros Hurl. unfold RealServerSteps.send_request, mbind, M_bind.
rewrite (get_users_run net w url Hurl).
by destruct (classify _).
Qed.

Lemma real_get_response_spec w r :
world_response w = Some (Some r) →
(RealServerSteps.get_response w).1 = Ok tt
↔ Requests.header "Content-Type" (headers r) = Some json_content_type
  ∧ Requests.ok r = true
  ∧ ∃ l, json r = Some (JList l).
Proof.
intros Hr.
unfold RealServerSteps.get_response, mbind, M_bind, load_world_response.
rewrite Hr. unfold Nose.assert_dict_contains_subset, content_type_json, forallb.
unfold json_content_type.
destruct (Requests.header "Content-Type" (headers r)) as [v|] eqn:Hh.
2:{ split; [done|]. by intros [? _]. }
destruct (String.eqb "application/json; charset=utf-8" v) eqn:Hv.
2:{ apply String.eqb_neq in Hv. split; [done|]. intros [[= ?] _]. by subst. }
apply String.eqb_eq in Hv. subst v. simpl.
rewrite Hr. destruct (Requests.ok r); simpl.
2:{ split; [done|]. by intros (_ & ? & _). }
rewrite Hr. unfold Requests.json_.
destruct (json r) as [j|]; simpl.
2:{ split; [done|]. by intros (_ & _ & ? & ?). }
destruct j; simpl; split; try done; try (by intros (_ & _ & ? & ?)).
intros _. eauto.
Qed.

End StepChecks.

(** ** The scoped override of [USERS_URL] *)

Lemma patch_dict_run {A} values (body : M A) w :
  Mock.patch_dict values body w
  = let '(r, w2) := body (set_services_dict (values ∪ services_dict w) w) in
    (r, set_services_dict (services_dict w) w2).
Proof.
  unfold Mock.patch_dict, with_stmt, Mock._patch_dict, Mock._unpatch_dict,
    mbind, M_bind, gets, modify. simpl.
  destruct (body _) as [r w2]. simpl. by rewrite (right_id_L ∅ (∪)).
Qed.

Lemma patch_dict_restores {A} values (body : M A) w :
  services_dict (Mock.patch_dict values body w).2 = services_dict w.
Proof. rewrite patch_dict_run. by destruct (body _). Qed.

Lemma mock_send_request_run net w :
  MockServerSteps.send_request net w
  = match world_mock_server_port w with
    | Some port =>
        Mock.patch_dict {["USERS_URL" := MockServerSteps.mock_users_url_of port]}
          (r ← Services.get_users net; modify (set_world_response (Some r))) w
    | None => (Raise (AttributeError "mock_server_port"), w)
    end.
Proof.
  unfold MockServerSteps.send_request, mbind at 1, M_bind.
  by destruct (world_mock_server_port w).
Qed.

(** The two mock scenarios: the canned answer passes the checks of
    [I get a mock response]; a status 500 leaves [None] in
    [world.response]. *)
Example mock_scenario_success :
  let w0 := mkWorld ∅ (services_dict (loaded "http://localhost:8000/")) [] None (Some 8081%N) in
  let w1 := (MockServerSteps.send_request (always (Responds users_response)) w0).2 in
  outbound w1 = ["http://localhost:8081/users"]
  ∧ world_response w1 = Some (Some users_response)
  ∧ (MockServerSteps.get_response w1).1 = Ok tt.
Proof. repeat split; by vm_compute. Qed.

Example mock_scenario_failure :
  let w0 := mkWorld ∅ (services_dict (loaded "http://localhost:8000/")) [] None (Some 8081%N) in
  let w1 := (MockServerSteps.send_request (always (Responds (status_response 500))) w0).2 in
  world_response w1 = Some None.
Proof. by vm_compute. Qed.

(** ** Importing [example.services] *)

Lemma import_module_run settings base w0 :
  cache_ok w0 →
  settings !! "BASE_URL" = Some base →
  ∃ w1,
    cache_ok w1
    ∧ same_but_cache (set_services_dict (<["BASE_URL" := base]> (services_dict w0)) w0) w1
    ∧ Services.import_module settings w0
      = match Urlparse.urljoin_compute base "users" with
        | Ok users =>
            (Ok tt, set_services_dict (<["USERS_URL" := users]> (services_dict w1)) w1)
        | Raise e => (Raise e, w1)
        end.
Proof.
  intros Hok Hbase.
  unfold Services.import_module, Services.getattr. rewrite Hbase.
  unfold mbind at 1, M_bind, mret, M_ret.
  unfold mbind at 1, M_bind, Services.store_global, modify.
  unfold mbind at 1, M_bind, Services.load_global. simpl services_dict.
  rewrite lookup_insert_eq.
  set (w0' := set_services_dict (<["BASE_URL":=base]> (services_dict w0)) w0).
  destruct (urljoin_run base "users" w0') as (w1 & Hrun & Hok1 & Hsame); [done|].
  exists w1. split; [done|]. split; [done|].
  unfold mbind, M_bind. rewrite Hrun.
  by destruct (Urlparse.urljoin_compute base "users").
Qed.

Lemma loaded_cache_ok base : cache_ok (loaded base).
Proof.
  destruct (import_module_run {["BASE_URL" := base]} base initial_world
              cache_ok_initial (lookup_singleton_eq _ _)) as (w1 & Hok1 & _ & Hrun).
  unfold loaded. rewrite Hrun.
  by destruct (Urlparse.urljoin_compute _ _).
Qed.

Lemma request_after_import net settings base users w0 :
  cache_ok w0 →
  settings !! "BASE_URL" = Some base →
  Urlparse.urljoin_compute base "users" = Ok users →
  outbound (Services.get_users net (Services.import_module settings w0).2).2
  = outbound w0 ++ [users].
Proof.
  intros Hok Hbase Husers.
  destruct (import_module_run settings base w0 Hok Hbase) as (w1 & _ & Hsame & ->).
  rewrite Husers. cbn [snd].
  rewrite (get_users_run net _ users) by apply lookup_insert_eq.
  destruct Hsame as (_ & Hout & _). cbn [snd outbound set_outbound set_services_dict].
  by rewrite Hout.
Qed.

(** ** One call on the wire *)





(** The ['.'] and [';'] of a segment are not those of a plain one: the
    segment [';'] leaves the base as it is, and a [';'] at the end of a
    segment is dropped. *)
Example urljoin_params_segment :
  (Urlparse.urljoin "http://example.com/dir/page" ";" initial_world).1
    = Ok "http://example.com/dir/page"
  ∧ (Urlparse.urljoin "http://example.com/dir/page" "users;" initial_world).1
    = Ok "http://example.com/dir/users".
Proof. split; reflexivity. Qed.

(** * The claims *)

(** C1, as the specification has it, fails: the response of a successful
    exchange is returned whatever its headers and body are.  Here the
    server answers 200 without a [Content-Type] header and with a JSON
    object for a body. *)
Lemma get_users_success_counterexample :
  (200 ≤ status_code bare_response < 300)%Z
  ∧ (Services.get_users (always (Responds bare_response))
       (loaded "http://localhost:8000/")).1 = Ok (Some bare_response)
  ∧ Requests.header "Content-Type" (headers bare_response) ≠ Some json_content_type
  ∧ ¬ ∃ l, json bare_response = Some (JList l).
Proof.
  split; [simpl; lia|]. split; [by vm_compute|]. split; [by vm_compute|].
  by intros [l Hl].
Qed.

(** C1 (amended): for every HTTP exchange that completes with a success
    status, [get_users] returns a non-absent value, the response received,
    whose success indicator is true; header mapping and body are the
    server's, and the step [I get a real response] run after
    [I send a real request] passes exactly when that response carries
    [Content-Type: application/json; charset=utf-8] and its body decodes
    to a list. *)
Theorem get_users_success net w url r :
  services_dict w !! "USERS_URL" = Some url →
  net (length (outbound w)) url = Responds r →
  (200 ≤ status_code r < 300)%Z →
  (Services.get_users net w).1 = Ok (Some r)
  ∧ Requests.ok r = true
  ∧ ((RealServerSteps.get_response (RealServerSteps.send_request net w).2).1 = Ok tt
     ↔ Requests.header "Content-Type" (headers r) = Some json_content_type
       ∧ ∃ l, json r = Some (JList l)).
Proof.
  intros Hurl Hnet Hstatus.
  assert (Hok : Requests.ok r = true) by (apply ok_spec; lia).
  rewrite (get_users_run net w url Hurl), (send_request_run net w url Hurl), Hnet.
  unfold classify. rewrite Hok. simpl. split; [done|]. split; [done|].
  rewrite (real_get_response_spec _ r) by done. tauto.
Qed.

Lemma get_users_success_witness :
  services_dict (loaded "http://localhost:8000/") !! "USERS_URL"
    = Some "http://localhost:8000/users"
  ∧ (200 ≤ status_code users_response < 300)%Z
  ∧ (Services.get_users (always (Responds users_response))
       (loaded "http://localhost:8000/")).1 = Ok (Some users_response)
  ∧ Requests.ok users_response = true.
Proof.
  assert (H1 : services_dict (loaded "http://localhost:8000/") !! "USERS_URL"
               = Some "http://localhost:8000/users") by (by vm_compute).
  assert (H2 : (200 ≤ status_code users_response < 300)%Z) by (simpl; lia).
  split; [exact H1|]. split; [exact H2|].
  destruct (get_users_success (always (Responds users_response))
              (loaded "http://localhost:8000/") _ users_response H1 eq_refl H2)
    as (Ha & Hb & _).
  split; [exact Ha | exact Hb].
Defined.

(** C2, as the specification has it, fails for the statuses from 600 on:
    [Response.ok] is false only for the client and server error classes,
    so the response with status 600 is returned. *)
Lemma get_users_failure_counterexample :
  (400 ≤ status_code (status_response 600))%Z
  ∧ (Services.get_users (always (Responds (status_response 600)))
       (loaded "http://localhost:8000/")).1 = Ok (Some (status_response 600)).
Proof. split; [simpl; lia | by vm_compute]. Qed.

(** C2 (amended): for every HTTP exchange whose response has a client or
    server error status (400 to 599), [get_users] returns the absent
    value, and nothing of the failed response is kept: neither the result
    nor the state left behind (the state before, with the requested URL
    added to the calls made) depends on its status code, body or
    headers. *)
Theorem get_users_failure net w url r :
  services_dict w !! "USERS_URL" = Some url →
  net (length (outbound w)) url = Responds r →
  (400 ≤ status_code r < 600)%Z →
  Services.get_users net w = (Ok None, set_outbound (outbound w ++ [url]) w).
Proof.
  intros Hurl Hnet Hstatus.
  rewrite (get_users_run net w url Hurl), Hnet. unfold classify.
  by rewrite (proj2 (ok_false_spec r) Hstatus).
Qed.

Lemma get_users_failure_witness :
  services_dict (loaded "http://localhost:8000/") !! "USERS_URL"
    = Some "http://localhost:8000/users"
  ∧ (400 ≤ status_code (status_response 500) < 600)%Z
  ∧ (Services.get_users (always (Responds (status_response 500)))
       (loaded "http://localhost:8000/")).1 = Ok None.
Proof.
  assert (H1 : services_dict (loaded "http://localhost:8000/") !! "USERS_URL"
               = Some "http://localhost:8000/users") by (by vm_compute).
  assert (H2 : (400 ≤ status_code (status_response 500) < 600)%Z) by (simpl; lia).
  split; [exact H1|]. split; [exact H2|].
  by rewrite (get_users_failure (always (Responds (status_response 500)))
                (loaded "http://localhost:8000/") _ (status_response 500) H1 eq_refl H2).
Defined.

(** C3: when the transport raises (connection refused, timeout, DNS
    failure), [get_users] neither catches nor translates the error: the
    invocation ends with this very exception, not with the absent
    value. *)
Theorem get_users_transport_error net w url e :
  services_dict w !! "USERS_URL" = Some url →
  net (length (outbound w)) url = Fails e →
  (Services.get_users net w).1 = Raise (RequestException e)
  ∧ (Services.get_users net w).1 ≠ Ok None.
Proof.
  intros Hurl Hnet. rewrite (get_users_run net w url Hurl), Hnet. by split.
Qed.

Lemma get_users_transport_error_witness :
  services_dict (loaded "http://localhost:8000/") !! "USERS_URL"
    = Some "http://localhost:8000/users"
  ∧ (Services.get_users (always (Fails ReadTimeout)) (loaded "http://localhost:8000/")).1
    = Raise (RequestException ReadTimeout).
Proof.
  assert (H1 : services_dict (loaded "http://localhost:8000/") !! "USERS_URL"
               = Some "http://localhost:8000/users") by (by vm_compute).
  split; [exact H1|].
  exact (proj1 (get_users_transport_error (always (Fails ReadTimeout))
                  (loaded "http://localhost:8000/") _ ReadTimeout H1 eq_refl)).
Defined.

(** C4: the override of [USERS_URL] in the step [I send a mock request]
    is undone on every way out of its scope.  Whatever the body of a
    [patch.dict] block does, and whether it returns or raises (a failed
    assertion is a raised [AssertionError]), the module dictionary after
    the block is the one before it; so it is after the step, during which
    the request went to the mock server's URL. *)
Theorem users_url_restored net w :
  (∀ A values (body : M A),
      services_dict (Mock.patch_dict values body w).2 = services_dict w)
  ∧ services_dict (MockServerSteps.send_request net w).2 = services_dict w
  ∧ services_dict (MockServerSteps.send_request net w).2 !! "USERS_URL"
    = services_dict w !! "USERS_URL"
  ∧ match world_mock_server_port w with
    | Some port =>
        outbound (MockServerSteps.send_request net w).2
        = outbound w ++ [MockServerSteps.mock_users_url_of port]
    | None => (MockServerSteps.send_request net w).2 = w
    end.
Proof.
  split; [intros; apply patch_dict_restores|].
  rewrite mock_send_request_run.
  destruct (world_mock_server_port w) as [port|]; [|done].
  rewrite patch_dict_restores. split; [done|]. split; [done|].
  rewrite patch_dict_run. unfold mbind, M_bind.
  rewrite (get_users_run net _ (MockServerSteps.mock_users_url_of port)).
  2:{ simpl. apply lookup_union_Some_l, lookup_singleton_eq. }
  by destruct (classify _).
Qed.

(** C5, as the specification has it, fails for the absolute base URLs
    whose scheme is not in [uses_relative]: [urljoin] then returns the
    relative segment as it is. *)
Lemma urljoin_segment_counterexample :
  (Urlparse.urlparse "ldap://example.com/dir/" "" initial_world).1
    = Ok (mkParse "ldap" "example.com" "/dir/" "" "" "")
  ∧ plain_segment "users" = true
  ∧ (Urlparse.urljoin "ldap://example.com/dir/" "users" initial_world).1 = Ok "users"
  ∧ (Urlparse.urljoin "ldap://example.com/dir/" "users" initial_world).1
    ≠ Ok "ldap://example.com/dir/users".
Proof. repeat split; by vm_compute. Qed.

(** C5 (amended): for every absolute base URL and every relative path
    segment (not empty, and without [':'], ['/'], ['?'], ['#'] and
    [';']): when the scheme of the base is in [uses_relative] (http,
    https, ftp, ...), [urljoin] gives the URL made of the scheme and the
    host of the base, of the path of the base with its last component
    replaced by the segment (['.'] and ['..'] segments resolved; when
    there are none, the segments are exactly those of the base with the
    segment in the place of the last) and of no parameters, query or
    fragment; when the base has another scheme, the segment is returned
    unchanged.  Either way the process is left as it was, the parse cache
    apart, and the result does not depend on that cache. *)
Theorem urljoin_segment base seg b w :
  cache_ok w →
  (Urlparse.urlparse base "" w).1 = Ok b →
  p_scheme b ≠ "" →
  plain_segment seg = true →
  let segments := removelast (PyStr.split "/" (p_path b)) ++ [seg] in
  (PyStr.mem (p_scheme b) Urlparse.uses_relative = true →
   (Urlparse.urljoin base seg w).1
   = Ok (Urlparse.urlunparse
           (mkParse (p_scheme b) (p_netloc b)
              (PyStr.join "/" (Urlparse.resolve_segments segments)) "" "" "")))
  ∧ (PyStr.mem (p_scheme b) Urlparse.uses_relative = false →
     (Urlparse.urljoin base seg w).1 = Ok seg)
  ∧ (dot_free segments = true → Urlparse.resolve_segments segments = segments)
  ∧ same_but_cache w (Urlparse.urljoin base seg w).2.
Proof.
  intros Hok Hb Habs Hseg segments.
  rewrite urlparse_result in Hb by done.
  rewrite urljoin_result by done.
  split; [intros Hrel; by apply urljoin_compute_plain|].
  split; [intros Hrel; by apply (urljoin_compute_other_scheme base seg b)|].
  split; [apply resolve_segments_dot_free | by apply urljoin_frame].
Qed.

Lemma urljoin_segment_witness :
  cache_ok initial_world
  ∧ (Urlparse.urlparse "http://example.com/api/v1?page=2#top" "" initial_world).1
    = Ok (mkParse "http" "example.com" "/api/v1" "" "page=2" "top")
  ∧ plain_segment "users" = true
  ∧ (Urlparse.urljoin "http://example.com/api/v1?page=2#top" "users" initial_world).1
    = Ok "http://example.com/api/users".
Proof.
  assert (H2 : (Urlparse.urlparse "http://example.com/api/v1?page=2#top" "" initial_world).1
               = Ok (mkParse "http" "example.com" "/api/v1" "" "page=2" "top"))
    by (by vm_compute).
  split; [exact cache_ok_initial|]. split; [exact H2|]. split; [reflexivity|].
  assert (H3 : p_scheme (mkParse "http" "example.com" "/api/v1" "" "page=2" "top") ≠ "")
    by done.
  exact (proj1 (urljoin_segment "http://example.com/api/v1?page=2#top" "users" _
                  initial_world cache_ok_initial H2 H3 eq_refl) eq_refl).
Defined.

(** C6: URL-building is deterministic.  Two evaluations of
    [urljoin(base, url)], in whatever states of the process (whose parse
    caches hold what [urlsplit] stored there), give identical results; so
    does the evaluation repeated right after the first, which finds the
    first one's entries in the cache. *)
Theorem urljoin_deterministic base url w1 w2 :
  cache_ok w1 →
  cache_ok w2 →
  (Urlparse.urljoin base url w1).1 = (Urlparse.urljoin base url w2).1
  ∧ (Urlparse.urljoin base url (Urlparse.urljoin base url w1).2).1
    = (Urlparse.urljoin base url w1).1.
Proof.
  intros Hok1 Hok2.
  rewrite !urljoin_result; auto using urljoin_cache_ok.
Qed.

Lemma urljoin_deterministic_witness :
  cache_ok initial_world
  ∧ cache_ok (loaded "http://example.com/api/")
  ∧ (Urlparse.urljoin "http://localhost:8000/" "users" initial_world).1
    = (Urlparse.urljoin "http://localhost:8000/" "users" (loaded "http://example.com/api/")).1.
Proof.
  pose proof (loaded_cache_ok "http://example.com/api/") as H2.
  split; [exact cache_ok_initial|]. split; [exact H2|].
  exact (proj1 (urljoin_deterministic "http://localhost:8000/" "users"
                  initial_world _ cache_ok_initial H2)).
Defined.

(** C7, as the specification has it, fails for a base URL with a path
    that does not end in ['/']: the request goes to the URL in which
    ['users'] has taken the place of the last path component. *)
Lemma request_target_counterexample :
  outbound (Services.get_users (always (Responds users_response))
              (loaded "http://example.com/api")).2
    = ["http://example.com/users"]
  ∧ "http://example.com/users" ≠ "http://example.com/api" +:+ "/users"
  ∧ "http://example.com/users" ≠ "http://example.com/api" +:+ "users".
Proof. repeat split; by vm_compute. Qed.

(** C7 (amended): for every configured base URL, [get_users] issues its
    request as GET of the Users URL bound at import, the join of the base
    URL with ['users'].  For a base URL with the scheme [http] or [https]
    in lower case, a host that is not empty and has none of ['/'], ['?'],
    ['#'], ['['] and [']'], and a directory path (empty, or starting with
    ['/']) without ['?'], ['#'], [';'] and without ['.'] and ['..']
    segments: when the base URL is scheme, host and nothing else, the
    target is [<base-url>/users]; when it is scheme, host, directory and
    ['/'], the target is the base URL followed by ['users']; when it is
    scheme, host, directory, ['/'] and a last component (without ['/'],
    ['?'], ['#'], [';']), ['users'] takes the place of that component. *)
Theorem request_target net settings base w0 :
  cache_ok w0 →
  settings !! "BASE_URL" = Some base →
  let target := outbound (Services.get_users net (Services.import_module settings w0).2).2 in
  (∀ users, (Urlparse.urljoin base "users" w0).1 = Ok users →
            target = outbound w0 ++ [users])
  ∧ (∀ scheme host,
        scheme = "http" ∨ scheme = "https" → host_like host = true →
        base = scheme +:+ "://" +:+ host →
        target = outbound w0 ++ [base +:+ "/users"])
  ∧ (∀ scheme host dir,
        scheme = "http" ∨ scheme = "https" → host_like host = true →
        dir_like dir = true →
        base = scheme +:+ "://" +:+ host +:+ dir +:+ "/" →
        target = outbound w0 ++ [base +:+ "users"])
  ∧ (∀ scheme host dir last,
        scheme = "http" ∨ scheme = "https" → host_like host = true →
        dir_like dir = true → free_of "/?#;" last = true →
        base = scheme +:+ "://" +:+ host +:+ dir +:+ "/" +:+ last →
        target = outbound w0 ++ [scheme +:+ "://" +:+ host +:+ dir +:+ "/" +:+ "users"]).
Proof.
  intros Hok Hbase target. subst target. split; [|split; [|split]].
  - intros users Husers. rewrite urljoin_result in Husers by done.
    by apply (request_after_import net settings base).
  - intros scheme host Hscheme Hhost ->.
    apply (request_after_import net settings (scheme +:+ "://" +:+ host)); [done..|].
    by apply urljoin_compute_http_host.
  - intros scheme host dir Hscheme Hhost Hdir ->.
    apply (request_after_import net settings (scheme +:+ "://" +:+ host +:+ dir +:+ "/"));
      [done..|].
    by apply urljoin_compute_http_dir.
  - intros scheme host dir last Hscheme Hhost Hdir Hlast ->.
    apply (request_after_import net settings
             (scheme +:+ "://" +:+ host +:+ dir +:+ "/" +:+ last)); [done..|].
    by apply urljoin_compute_http_last.
Qed.

Lemma request_target_witness :
  cache_ok initial_world
  ∧ host_like "localhost:8000" = true
  ∧ outbound (Services.get_users (always (Responds users_response))
                (loaded "http://localhost:8000")).2
    = ["http://localhost:8000/users"].
Proof.
  split; [exact cache_ok_initial|]. split; [reflexivity|].
  exact (proj1 (proj2 (request_target (always (Responds users_response))
                         {["BASE_URL" := "http://localhost:8000"]}
                         "http://localhost:8000" initial_world
                         cache_ok_initial (lookup_singleton_eq _ _)))
           "http" "localhost:8000" (or_introl eq_refl) eq_refl eq_refl).
Defined.




(** C9: [BASE_URL] and [USERS_URL] are bound when the module is imported,
    [USERS_URL] to the join of [BASE_URL] with ['users'], and [get_users]
    leaves both as they are: after any number of invocations the module
    dictionary is the one before them. *)
Theorem urls_fixed_at_import net settings base users w0 :
  cache_ok w0 →
  settings !! "BASE_URL" = Some base →
  Urlparse.urljoin_compute base "users" = Ok users →
  (Services.import_module settings w0).1 = Ok tt
  ∧ services_dict (Services.import_module settings w0).2
    = <["USERS_URL" := users]> (<["BASE_URL" := base]> (services_dict w0))
  ∧ ∀ n w,
      services_dict (Nat.iter n (fun w => (Services.get_users net w).2) w)
      = services_dict w.
Proof.
  intros Hok Hbase Husers.
  destruct (import_module_run settings base w0 Hok Hbase) as (w1 & _ & Hsame & ->).
  rewrite Husers. simpl. split; [done|]. split.
  - destruct Hsame as (-> & _). done.
  - intros n w. induction n as [|n IH]; simpl; [done|].
    by rewrite get_users_services_dict.
Qed.

Lemma urls_fixed_at_import_witness :
  cache_ok initial_world
  ∧ services_dict (loaded "http://localhost:8000/")
    = <["USERS_URL" := "http://localhost:8000/users"]>
        (<["BASE_URL" := "http://localhost:8000/"]> ∅).
Proof.
  split; [exact cache_ok_initial|].
  exact (proj1 (proj2 (urls_fixed_at_import (always (Fails ReadTimeout))
                         {["BASE_URL" := "http://localhost:8000/"]}
                         "http://localhost:8000/" "http://localhost:8000/users"
                         initial_world cache_ok_initial eq_refl eq_refl))).
Defined.

(** C10, as the specification has it, fails: [Response.ok] is not the
    test [status_code < 400].  The response with status 999 is returned
    although its status is not below 400. *)
Lemma get_users_ok_boundary_counterexample :
  ¬ ((Services.get_users (always (Responds (status_response 999)))
        (loaded "http://localhost:8000/")).1 = Ok (Some (status_response 999))
     ↔ (status_code (status_response 999) < 400)%Z).
Proof.
  intros [H _]. assert (Hlt : (status_code (status_response 999) < 400)%Z).
  { apply H. by vm_compute. }
  simpl in Hlt. lia.
Qed.

(** C10 (amended): for every completed HTTP exchange, [get_users] returns
    the response if and only if its status code is outside 400..599 (the
    [ok] predicate); in particular the statuses below 400, the redirect
    class 300..399 among them, give a non-absent result, and the absent
    value is returned exactly when the status is in 400..599. *)
Theorem get_users_ok_boundary net w url r :
  services_dict w !! "USERS_URL" = Some url →
  net (length (outbound w)) url = Responds r →
  ((Services.get_users net w).1 = Ok (Some r) ↔ ¬ (400 ≤ status_code r < 600)%Z)
  ∧ ((Services.get_users net w).1 = Ok None ↔ (400 ≤ status_code r < 600)%Z)
  ∧ ((status_code r < 400)%Z → (Services.get_users net w).1 = Ok (Some r))
  ∧ ((300 ≤ status_code r < 400)%Z → (Services.get_users net w).1 = Ok (Some r)).
Proof.
  intros Hurl Hnet. rewrite (get_users_run net w url Hurl), Hnet. simpl.
  pose proof (ok_spec r) as Hok. pose proof (ok_false_spec r) as Hnok.
  destruct (Requests.ok r).
  - repeat split; try done; try tauto.
  - assert (400 ≤ status_code r < 600)%Z by by apply Hnok.
    repeat split; try done; try tauto; try lia.
Qed.

Lemma get_users_ok_boundary_witness :
  services_dict (loaded "http://localhost:8000/") !! "USERS_URL"
    = Some "http://localhost:8000/users"
  ∧ (Services.get_users (always (Responds (status_response 304)))
       (loaded "http://localhost:8000/")).1 = Ok (Some (status_response 304)).
Proof.
  assert (H1 : services_dict (loaded "http://localhost:8000/") !! "USERS_URL"
               = Some "http://localhost:8000/users") by (by vm_compute).
  split; [exact H1|].
  refine (proj2 (proj2 (proj2 (get_users_ok_boundary
            (always (Responds (status_response 304)))
            (loaded "http://localhost:8000/") _ (status_response 304) H1 eq_refl))) _).
  simpl. lia.
Defined.

(** * Further properties of the code *)

(** ** [get_users] *)

(** X1: [get_users] leaves the module dictionary and lettuce's [world]
    as they are, whatever the outcome.  It calls [requests.get] exactly
    when [USERS_URL] is bound, on the URL bound to it; when it is not
    bound, the invocation ends with [NameError] before any call. *)
Theorem get_users_frame net w :
  let w' := (Services.get_users net w).2 in
  services_dict w' = services_dict w
  ∧ world_response w' = world_response w
  ∧ world_mock_server_port w' = world_mock_server_port w
  ∧ match services_dict w !! "USERS_URL" with
    | Some url => outbound w' = outbound w ++ [url]
    | None => outbound w' = outbound w
              ∧ (Services.get_users net w).1 = Raise (NameError "USERS_URL")
    end.
Proof.
  destruct (services_dict w !! "USERS_URL") as [url|] eqn:E; cbn zeta.
  - by rewrite (get_users_run net w url E).
  - by rewrite (get_users_unbound net w E).
Qed.

Lemma invocations_S net n w :
  invocations net (S n) w = (Services.get_users net (invocations net n w)).2.
Proof. reflexivity. Qed.

Lemma invocations_services_dict net n w :
  services_dict (invocations net n w) = services_dict w.
Proof.
  induction n as [|n IH]; [done|].
  by rewrite invocations_S, get_users_services_dict.
Qed.

Lemma invocations_outbound net n w url :
  services_dict w !! "USERS_URL" = Some url →
  outbound (invocations net n w) = outbound w ++ replicate n url.
Proof.
  intros Hurl. induction n as [|n IH]; [by rewrite app_nil_r|].
  rewrite invocations_S, (get_users_run net _ url).
  2:{ by rewrite invocations_services_dict. }
  cbn [snd outbound set_outbound]. by rewrite IH, replicate_S_end, app_assoc.
Qed.

(** X2: [n] invocations make [n] calls, all of them to the Users URL, and
    none is answered from an earlier one: the invocation that follows [n]
    others returns what [get_users] makes of the outcome of the call
    numbered [n] after those made before. *)
Theorem get_users_n_calls net n w url :
  services_dict w !! "USERS_URL" = Some url →
  outbound (invocations net n w) = outbound w ++ replicate n url
  ∧ (Services.get_users net (invocations net n w)).1
    = classify (net (length (outbound w) + n) url).
Proof.
  intros Hurl. split; [by apply invocations_outbound|].
  rewrite (get_users_run net _ url) by (by rewrite invocations_services_dict).
  cbn [fst]. rewrite (invocations_outbound net n w url Hurl).
  by rewrite length_app, length_replicate.
Qed.

Lemma get_users_n_calls_witness :
  services_dict (loaded "http://localhost:8000/") !! "USERS_URL"
    = Some "http://localhost:8000/users"
  ∧ outbound (invocations (always (Responds users_response)) 3
                (loaded "http://localhost:8000/"))
    = replicate 3 "http://localhost:8000/users".
Proof.
  assert (H1 : services_dict (loaded "http://localhost:8000/") !! "USERS_URL"
               = Some "http://localhost:8000/users") by (by vm_compute).
  split; [exact H1|].
  exact (proj1 (get_users_n_calls (always (Responds users_response)) 3
                  (loaded "http://localhost:8000/") _ H1)).
Defined.

(** ** The module body *)

Lemma urlsplit_frame url scheme w :
  same_but_cache w (Urlparse.urlsplit url scheme w).2.
Proof.
  unfold Urlparse.urlsplit, mbind, M_bind, gets. cbn [fst snd].
  destruct (parse_cache w !! (url, scheme)); [apply same_but_cache_refl|].
  unfold lift. case_bool_decide;
    destruct (Urlparse.urlsplit_compute url scheme); by repeat split.
Qed.

Lemma urlsplit_bounded url scheme w :
  cache_bounded w → cache_bounded (Urlparse.urlsplit url scheme w).2.
Proof.
  unfold cache_bounded, Urlparse.urlsplit, mbind, M_bind, gets. cbn [fst snd].
  intros Hb. destruct (parse_cache w !! (url, scheme)) eqn:Hmiss; [done|].
  unfold lift. case_bool_decide as Hfull;
    destruct (Urlparse.urlsplit_compute url scheme); cbn.
  - rewrite map_size_insert, lookup_empty, map_size_empty.
    unfold Urlparse.MAX_CACHE_SIZE. lia.
  - rewrite map_size_empty. lia.
  - rewrite map_size_insert, Hmiss. lia.
  - done.
Qed.

Lemma urlparse_frame url scheme w :
  same_but_cache w (Urlparse.urlparse url scheme w).2.
Proof.
  unfold Urlparse.urlparse, mbind, M_bind.
  pose proof (urlsplit_frame url scheme w) as H.
  by destruct (Urlparse.urlsplit url scheme w) as [[v|e] w'].
Qed.

Lemma urlparse_bounded url scheme w :
  cache_bounded w → cache_bounded (Urlparse.urlparse url scheme w).2.
Proof.
  intros Hb. unfold Urlparse.urlparse, mbind, M_bind.
  pose proof (urlsplit_bounded url scheme w Hb) as H.
  by destruct (Urlparse.urlsplit url scheme w) as [[v|e] w'].
Qed.

Lemma urljoin_frame_any base url w :
  same_but_cache w (Urlparse.urljoin base url w).2.
Proof.
  unfold Urlparse.urljoin.
  destruct (negb (PyStr.truthy base)); [apply same_but_cache_refl|].
  destruct (negb (PyStr.truthy url)); [apply same_but_cache_refl|].
  unfold mbind at 1, M_bind.
  pose proof (urlparse_frame base "" w) as H1.
  destruct (Urlparse.urlparse base "" w) as [[b|e] w1]; [|done].
  unfold mbind, M_bind.
  pose proof (urlparse_frame url (p_scheme b) w1) as H2.
  destruct (Urlparse.urlparse url (p_scheme b) w1) as [[u|e] w2];
    cbn [snd] in *; eauto using same_but_cache_trans.
Qed.

Lemma urljoin_bounded base url w :
  cache_bounded w → cache_bounded (Urlparse.urljoin base url w).2.
Proof.
  intros Hb. unfold Urlparse.urljoin.
  destruct (negb (PyStr.truthy base)); [done|].
  destruct (negb (PyStr.truthy url)); [done|].
  unfold mbind at 1, M_bind.
  pose proof (urlparse_bounded base "" w Hb) as H1.
  destruct (Urlparse.urlparse base "" w) as [[b|e] w1]; [|done].
  unfold mbind, M_bind.
  pose proof (urlparse_bounded url (p_scheme b) w1 H1) as H2.
  by destruct (Urlparse.urlparse url (p_scheme b) w1) as [[u|e] w2].
Qed.

Lemma import_module_missing settings w :
  settings !! "BASE_URL" = None →
  Services.import_module settings w = (Raise (AttributeError "BASE_URL"), w).
Proof.
  intros Hs. unfold Services.import_module, Services.getattr. by rewrite Hs.
Qed.

Lemma import_module_steps settings base w :
  settings !! "BASE_URL" = Some base →
  Services.import_module settings w
  = let w0 := set_services_dict (<["BASE_URL" := base]> (services_dict w)) w in
    match Urlparse.urljoin base "users" w0 with
    | (Ok users, w1) =>
        (Ok tt, set_services_dict (<["USERS_URL" := users]> (services_dict w1)) w1)
    | (Raise e, w1) => (Raise e, w1)
    end.
Proof.
  intros Hs. unfold Services.import_module, Services.getattr. rewrite Hs.
  unfold mbind at 1, M_bind, mret, M_ret.
  unfold mbind at 1, M_bind, Services.store_global, modify.
  unfold mbind at 1, M_bind, Services.load_global. cbn [services_dict set_services_dict].
  rewrite lookup_insert_eq. unfold mbind, M_bind. cbn zeta.
  by destruct (Urlparse.urljoin base "users" _) as [[users|e] w1].
Qed.

(** X3: the outcomes of the import.  Without a [BASE_URL] setting it
    raises [AttributeError]; when [urljoin] raises, it raises the same
    exception; otherwise it succeeds.  [USERS_URL] is bound only on
    success: a failed import leaves it as it was. *)
Theorem import_module_outcome settings w :
  cache_ok w →
  (Services.import_module settings w).1
  = match settings !! "BASE_URL" with
    | None => Raise (AttributeError "BASE_URL")
    | Some base => (fun _ => tt) <$> Urlparse.urljoin_compute base "users"
    end
  ∧ services_dict (Services.import_module settings w).2 !! "USERS_URL"
    = match settings !! "BASE_URL" with
      | None => services_dict w !! "USERS_URL"
      | Some base =>
          match Urlparse.urljoin_compute base "users" with
          | Ok users => Some users
          | Raise _ => services_dict w !! "USERS_URL"
          end
      end.
Proof.
  intros Hok. destruct (settings !! "BASE_URL") as [base|] eqn:Hs.
  2:{ by rewrite (import_module_missing settings w Hs). }
  destruct (import_module_run settings base w Hok Hs) as (w1 & _ & Hsame & ->).
  destruct Hsame as (Hd & _).
  destruct (Urlparse.urljoin_compute base "users") as [users|e];
    cbn [fst snd services_dict set_services_dict] in *.
  - by rewrite lookup_insert_eq.
  - by rewrite Hd, lookup_insert_ne.
Qed.

Lemma import_module_outcome_witness :
  cache_ok initial_world
  ∧ (Services.import_module {["BASE_URL" := "http://[::1/"]} initial_world).1
    = Raise (ValueError "Invalid IPv6 URL")
  ∧ services_dict (Services.import_module {["BASE_URL" := "http://[::1/"]} initial_world).2
      !! "USERS_URL" = None.
Proof.
  split; [exact cache_ok_initial|].
  exact (import_module_outcome {["BASE_URL" := "http://[::1/"]} initial_world
           cache_ok_initial).
Defined.

(** X4: the import makes no request and leaves lettuce's [world] alone,
    whatever the settings and whether it succeeds or raises; of the module
    dictionary it touches nothing but [BASE_URL] and [USERS_URL]. *)
Theorem import_module_frame settings w :
  let w' := (Services.import_module settings w).2 in
  outbound w' = outbound w
  ∧ world_response w' = world_response w
  ∧ world_mock_server_port w' = world_mock_server_port w
  ∧ ∀ name, name ≠ "BASE_URL" → name ≠ "USERS_URL" →
            services_dict w' !! name = services_dict w !! name.
Proof.
  cbn zeta. destruct (settings !! "BASE_URL") as [base|] eqn:Hs.
  2:{ by rewrite (import_module_missing settings w Hs). }
  rewrite (import_module_steps settings base w Hs). cbn zeta.
  pose proof (urljoin_frame_any base "users"
                (set_services_dict (<["BASE_URL":=base]> (services_dict w)) w))
    as (Hd & Ho & Hr & Hp).
  destruct (Urlparse.urljoin base "users" _) as [[users|e] w1];
    cbn [snd fst outbound world_response world_mock_server_port services_dict
         set_services_dict] in *.
  - repeat split; try done. intros name H1 H2.
    by rewrite lookup_insert_ne, Hd, lookup_insert_ne.
  - repeat split; try done. intros name H1 H2.
    by rewrite Hd, lookup_insert_ne.
Qed.

(** X5: the parse cache never grows beyond [MAX_CACHE_SIZE] entries:
    [urljoin], the import of the module and [get_users] keep the bound. *)
Theorem parse_cache_bounded net base url settings w :
  cache_bounded w →
  cache_bounded (Urlparse.urljoin base url w).2
  ∧ cache_bounded (Services.import_module settings w).2
  ∧ cache_bounded (Services.get_users net w).2.
Proof.
  intros Hb. split; [by apply urljoin_bounded|]. split.
  - destruct (settings !! "BASE_URL") as [b|] eqn:Hs.
    2:{ by rewrite (import_module_missing settings w Hs). }
    rewrite (import_module_steps settings b w Hs). cbn zeta.
    pose proof (urljoin_bounded b "users"
                  (set_services_dict (<["BASE_URL":=b]> (services_dict w)) w) Hb) as H.
    by destruct (Urlparse.urljoin b "users" _) as [[users|e] w1].
  - destruct (services_dict w !! "USERS_URL") as [u|] eqn:E.
    + by rewrite (get_users_run net w u E).
    + by rewrite (get_users_unbound net w E).
Qed.

Lemma parse_cache_bounded_witness :
  cache_bounded initial_world
  ∧ cache_bounded (Urlparse.urljoin "http://localhost:8000/" "users" initial_world).2.
Proof.
  assert (H0 : cache_bounded initial_world).
  { unfold cache_bounded. cbn. rewrite map_size_empty. unfold Urlparse.MAX_CACHE_SIZE. lia. }
  split; [exact H0|].
  exact (proj1 (parse_cache_bounded (always (Fails ReadTimeout))
                  "http://localhost:8000/" "users" ∅ initial_world H0)).
Defined.

(** ** The Users URL *)

(** X6: for an http or https base URL, [urljoin] puts the segment in the
    place of the last path component, as strings: host and directory
    stay, what follows the last ['/'] goes.  Joining the same segment to
    the result gives the result again. *)
Theorem urljoin_replaces_last_component scheme host dir last seg w :
  cache_ok w →
  scheme = "http" ∨ scheme = "https" →
  host_like host = true →
  dir_like dir = true →
  free_of "/?#;" last = true →
  plain_segment seg = true →
  dot_free [seg] = true →
  let joined := scheme +:+ "://" +:+ host +:+ dir +:+ "/" +:+ seg in
  (Urlparse.urljoin (scheme +:+ "://" +:+ host +:+ dir +:+ "/" +:+ last) seg w).1
  = Ok joined
  ∧ (Urlparse.urljoin joined seg w).1 = Ok joined.
Proof.
  intros Hok Hscheme Hhost Hdir Hlast Hseg Hdot joined. subst joined.
  rewrite !urljoin_result by done.
  split; apply urljoin_compute_http_last; auto using plain_segment_path_chars.
Qed.

Lemma urljoin_replaces_last_component_witness :
  cache_ok initial_world
  ∧ host_like "example.com" = true
  ∧ dir_like "/api/v1" = true
  ∧ (Urlparse.urljoin "https://example.com/api/v1/index.html" "users" initial_world).1
    = Ok "https://example.com/api/v1/users".
Proof.
  split; [exact cache_ok_initial|]. split; [reflexivity|]. split; [reflexivity|].
  exact (proj1 (urljoin_replaces_last_component "https" "example.com" "/api/v1"
                  "index.html" "users" initial_world cache_ok_initial
                  (or_intror eq_refl) eq_refl eq_refl eq_refl eq_refl eq_refl)).
Defined.

Lemma import_module_cache_ok settings w :
  cache_ok w → cache_ok (Services.import_module settings w).2.
Proof.
  intros Hok. destruct (settings !! "BASE_URL") as [base|] eqn:Hs.
  2:{ by rewrite (import_module_missing settings w Hs). }
  destruct (import_module_run settings base w Hok Hs) as (w1 & Hok1 & _ & ->).
  by destruct (Urlparse.urljoin_compute base "users").
Qed.

Lemma import_module_users_url settings base users w :
  cache_ok w →
  settings !! "BASE_URL" = Some base →
  Urlparse.urljoin_compute base "users" = Ok users →
  services_dict (Services.import_module settings w).2 !! "USERS_URL" = Some users.
Proof.
  intros Hok Hs Hu.
  destruct (import_module_run settings base w Hok Hs) as (w1 & _ & _ & ->).
  rewrite Hu. cbn [snd services_dict set_services_dict]. apply lookup_insert_eq.
Qed.

(** X7: the Users URL of an http or https base URL is well formed.  With
    a base URL made of a host only, or of host, directory and last
    component, [USERS_URL] is bound to scheme, host, directory and
    ['/users']; it parses to this scheme and host, to the path of the
    directory followed by ['/users'] and to no parameters, query or
    fragment; and [urlunparse] puts it together again. *)
Theorem users_url_well_formed settings scheme host dir last w :
  cache_ok w →
  scheme = "http" ∨ scheme = "https" →
  host_like host = true →
  dir_like dir = true →
  free_of "/?#;" last = true →
  settings !! "BASE_URL" = Some (scheme +:+ "://" +:+ host) ∧ dir = ""
  ∨ settings !! "BASE_URL" = Some (scheme +:+ "://" +:+ host +:+ dir +:+ "/" +:+ last) →
  let users := scheme +:+ "://" +:+ host +:+ dir +:+ "/" +:+ "users" in
  let w' := (Services.import_module settings w).2 in
  services_dict w' !! "USERS_URL" = Some users
  ∧ (Urlparse.urlparse users "" w').1
    = Ok (mkParse scheme host (dir +:+ "/" +:+ "users") "" "" "")
  ∧ Urlparse.urlunparse (mkParse scheme host (dir +:+ "/" +:+ "users") "" "" "") = users.
Proof.
  intros Hok Hscheme Hhost Hdir Hlast Hbase users w'. subst users w'.
  split; [|split].
  - destruct Hbase as [[Hs ->] | Hs].
    + apply (import_module_users_url settings _ _ w Hok Hs).
      rewrite urljoin_compute_http_host by done. f_equal.
      by rewrite !append_assoc.
    + apply (import_module_users_url settings _ _ w Hok Hs).
      by apply urljoin_compute_http_last.
  - rewrite urlparse_result by (by apply import_module_cache_ok).
    by apply urlparse_compute_http.
  - pose proof Hhost as [Hne _]%andb_true_iff.
    apply urlunparse_http; [done..|].
    by destruct (http_path_shape dir "users" Hdir eq_refl) as (_ & _ & Hp).
Qed.

Lemma users_url_well_formed_witness :
  cache_ok initial_world
  ∧ host_like "localhost:8000" = true
  ∧ services_dict (loaded "http://localhost:8000") !! "USERS_URL"
    = Some "http://localhost:8000/users".
Proof.
  split; [exact cache_ok_initial|]. split; [reflexivity|].
  exact (proj1 (users_url_well_formed {["BASE_URL" := "http://localhost:8000"]}
                  "http" "localhost:8000" "" "" initial_world cache_ok_initial
                  (or_introl eq_refl) eq_refl eq_refl eq_refl
                  (or_introl (conj (lookup_singleton_eq _ _) eq_refl)))).
Defined.

Lemma urljoin_compute_schemeless base seg :
  base = "" ∨ plain_segment base = true →
  plain_segment seg = true →
  dot_free [seg] = true →
  Urlparse.urljoin_compute base seg = Ok seg.
Proof.
  intros [-> | Hbase] Hseg Hdot; [done|].
  unfold Urlparse.urljoin_compute.
  pose proof Hbase as [Hb _]%andb_true_iff. pose proof Hseg as [Hs _]%andb_true_iff.
  rewrite Hb, Hs. cbv beta iota delta [negb].
  rewrite urlsplit_compute_plain, Res_fmap_Ok, parse_of_split_plain, Res_bind_Ok by done.
  cbn [p_scheme].
  rewrite urlsplit_compute_plain, Res_fmap_Ok, parse_of_split_plain, Res_bind_Ok by done.
  f_equal. unfold Urlparse.join_parsed.
  change (String.eqb "" "") with true.
  change (PyStr.mem "" Urlparse.uses_relative) with true.
  change (PyStr.mem "" Urlparse.uses_netloc) with true.
  cbn [negb orb andb PyStr.truthy].
  rewrite (take1_not_contains "/" seg) by (by apply plain_segment_contains).
  rewrite Hs. cbn [negb andb].
  rewrite !split_not_contains by (by apply plain_segment_contains).
  cbn [removelast app]. rewrite resolve_segments_dot_free by done.
  cbn [PyStr.join String.concat].
  unfold Urlparse.urlunparse, Urlparse.urlunsplit. by cbn [PyStr.truthy andb orb].
Qed.

(** X8: a base URL without a scheme is lost.  When [BASE_URL] is empty or
    a bare name (no [':'], ['/'], ['?'], ['#'] or [';'], as
    ['example.com']), [USERS_URL] is the relative ['users'], and that is
    what [get_users] calls [requests.get] on. *)
Theorem users_url_of_schemeless_base net settings base w :
  cache_ok w →
  settings !! "BASE_URL" = Some base →
  base = "" ∨ plain_segment base = true →
  services_dict (Services.import_module settings w).2 !! "USERS_URL" = Some "users"
  ∧ outbound (Services.get_users net (Services.import_module settings w).2).2
    = outbound w ++ ["users"].
Proof.
  intros Hok Hs Hbase.
  assert (Hu : Urlparse.urljoin_compute base "users" = Ok "users")
    by (by apply urljoin_compute_schemeless).
  split; [by apply (import_module_users_url settings base)|].
  by apply (request_after_import net settings base).
Qed.

Lemma users_url_of_schemeless_base_witness :
  cache_ok initial_world
  ∧ plain_segment "example.com" = true
  ∧ services_dict (loaded "example.com") !! "USERS_URL" = Some "users".
Proof.
  split; [exact cache_ok_initial|]. split; [reflexivity|].
  exact (proj1 (users_url_of_schemeless_base (always (Fails MissingSchema))
                  {["BASE_URL" := "example.com"]} "example.com" initial_world
                  cache_ok_initial (lookup_singleton_eq _ _) (or_intror eq_refl))).
Defined.

Lemma splitnetloc_delimited host path :
  free_of "/?#" host = true →
  free_of "?#" path = true →
  path = "" ∨ (∃ p, path = String "/" p) →
  Urlparse._splitnetloc ("//" +:+ host +:+ path) 2 = (host, path).
Proof.
  intros Hhost Hpath Hshape.
  assert (Hq : PyStr.find "?" (host +:+ path) = None).
  { apply find_not_contains. rewrite contains_append.
    by rewrite (free_of_contains _ host "?" Hhost), (free_of_contains _ path "?" Hpath). }
  assert (Hh : PyStr.find "#" (host +:+ path) = None).
  { apply find_not_contains. rewrite contains_append.
    by rewrite (free_of_contains _ host "#" Hhost), (free_of_contains _ path "#" Hpath). }
  unfold Urlparse._splitnetloc, PyStr.find_from.
  rewrite !append_cons, append_nil_l. simpl PyStr.drop. simpl fold_left.
  rewrite Hq, Hh.
  rewrite (find_append_r "/") by (by apply (free_of_contains _ host "/" Hhost)).
  simpl String.length. rewrite length_append.
  destruct Hshape as [-> | [p ->]].
  - simpl. rewrite append_nil_r, Nat.add_0_r, Nat.sub_0_r.
    by rewrite take_length, drop_length.
  - simpl. rewrite Nat.add_0_r, Nat.sub_0_r.
    rewrite Nat.min_r by lia.
    by rewrite take_append, drop_append.
Qed.

Lemma urlsplit_compute_unbalanced scheme host path :
  scheme = "http" ∨ scheme = "https" →
  free_of "/?#" host = true →
  Urlparse.unbalanced_brackets host = true →
  free_of "?#" path = true →
  path = "" ∨ (∃ p, path = String "/" p) →
  Urlparse.urlsplit_compute (scheme +:+ "://" +:+ host +:+ path) ""
  = Raise (ValueError "Invalid IPv6 URL").
Proof.
  intros Hscheme Hhost Hbr Hpath Hshape.
  assert (H : ∀ s, Urlparse.split_after_scheme s ("//" +:+ host +:+ path)
                   = Raise (ValueError "Invalid IPv6 URL")).
  { intros s0. unfold Urlparse.split_after_scheme.
    rewrite (splitnetloc_delimited host path Hhost Hpath Hshape).
    change (PyStr.take 2 ("//" +:+ host +:+ path)) with "//".
    change (String.eqb "//" "//") with true. cbv iota. by rewrite Hbr. }
  destruct Hscheme as [-> | ->]; unfold Urlparse.urlsplit_compute.
  - exact (H "http").
  - exact (H "https").
Qed.

(** X9: a base URL whose host has a bracket without its partner (an
    IPv6 literal cut short, as ['http://[::1/']) is refused: the import
    raises [ValueError], and [USERS_URL] stays as it was. *)
Theorem import_refuses_unbalanced_brackets settings scheme host path w :
  cache_ok w →
  settings !! "BASE_URL" = Some (scheme +:+ "://" +:+ host +:+ path) →
  scheme = "http" ∨ scheme = "https" →
  free_of "/?#" host = true →
  Urlparse.unbalanced_brackets host = true →
  free_of "?#" path = true →
  path = "" ∨ (∃ p, path = String "/" p) →
  (Services.import_module settings w).1 = Raise (ValueError "Invalid IPv6 URL")
  ∧ services_dict (Services.import_module settings w).2 !! "USERS_URL"
    = services_dict w !! "USERS_URL".
Proof.
  intros Hok Hs Hscheme Hhost Hbr Hpath Hshape.
  destruct (import_module_run settings _ w Hok Hs) as (w1 & _ & Hsame & ->).
  assert (Hu : Urlparse.urljoin_compute (scheme +:+ "://" +:+ host +:+ path) "users"
               = Raise (ValueError "Invalid IPv6 URL")).
  { unfold Urlparse.urljoin_compute.
    replace (PyStr.truthy (scheme +:+ "://" +:+ host +:+ path)) with true
      by (by destruct Hscheme as [-> | ->]).
    cbv beta iota delta [negb PyStr.truthy].
    by rewrite urlsplit_compute_unbalanced. }
  rewrite Hu. cbn [fst snd]. split; [done|].
  destruct Hsame as (-> & _). cbn. by rewrite lookup_insert_ne.
Qed.

Lemma import_refuses_unbalanced_brackets_witness :
  cache_ok initial_world
  ∧ Urlparse.unbalanced_brackets "[::1" = true
  ∧ (Services.import_module {["BASE_URL" := "https://[::1/api"]} initial_world).1
    = Raise (ValueError "Invalid IPv6 URL").
Proof.
  split; [exact cache_ok_initial|]. split; [reflexivity|].
  exact (proj1 (import_refuses_unbalanced_brackets
                  {["BASE_URL" := "https://[::1/api"]} "https" "[::1" "/api"
                  initial_world cache_ok_initial (lookup_singleton_eq _ _)
                  (or_intror eq_refl) eq_refl eq_refl eq_refl
                  (or_intror (ex_intro _ "api" eq_refl)))).
Defined.

(** ** The step definitions *)

Section StepTables.
#[local] Arguments String.eqb : simpl never.

Lemma checked_json_run (check : PyJson → M unit) w :
  (r ← load_world_response "headers";
   _ ← Nose.assert_dict_contains_subset content_type_json (headers r);
   r ← load_world_response "ok";
   _ ← Nose.assert_true (Requests.ok r);
   r ← load_world_response "json";
   v ← Requests.json_ r;
   check v) w
  = match checked_json w with
    | Ok j => check j w
    | Raise e => (Raise e, w)
    end.
Proof.
  unfold checked_json, mbind, M_bind, load_world_response.
  destruct (world_response w) as [[r|]|] eqn:Hr; [|done..].
  unfold Nose.assert_dict_contains_subset, content_type_json, forallb.
  unfold json_content_type.
  destruct (Requests.header "Content-Type" (headers r)) as [v|]; [|done].
  destruct (String.eqb "application/json; charset=utf-8" v); [|done]. simpl.
  rewrite Hr. destruct (Requests.ok r); [|done]. simpl.
  rewrite Hr. unfold Requests.json_. by destruct (json r).
Qed.

Lemma real_get_response_run w :
  RealServerSteps.get_response w
  = (j ← checked_json w;
     match j with JList _ => Ok tt | _ => Raise AssertionError end, w).
Proof.
  unfold RealServerSteps.get_response. rewrite checked_json_run.
  destruct (checked_json w) as [j|e]; [|done]. by destruct j.
Qed.

Lemma mock_get_response_run w :
  MockServerSteps.get_response w
  = (j ← checked_json w;
     match j with JList [] => Ok tt | _ => Raise AssertionError end, w).
Proof.
  unfold MockServerSteps.get_response. rewrite checked_json_run.
  destruct (checked_json w) as [j|e]; [|done]. by destruct j as [| | | |[|]|].
Qed.

End StepTables.

(** X10: what [I get a real response] does, case by case, in the order
    of its statements: [AttributeError] when [world.response] is unset or
    [None]; [AssertionError] when the [Content-Type] header is missing or
    has another value, and next when the response is not [ok];
    [ValueError] when the body is no JSON document; [AssertionError] when
    the document is not a list; success otherwise.  It changes nothing. *)
Theorem real_get_response_table w :
  RealServerSteps.get_response w
  = (j ← checked_json w;
     match j with JList _ => Ok tt | _ => Raise AssertionError end, w).
Proof.
  unfold RealServerSteps.get_response. rewrite checked_json_run.
  destruct (checked_json w) as [j|e]; [|done]. by destruct j.
Qed.

(** X11: [I get a mock response] goes through the same checks, and at
    the end accepts the empty list only.  It changes nothing. *)
Theorem mock_get_response_table w :
  MockServerSteps.get_response w
  = (j ← checked_json w;
     match j with JList [] => Ok tt | _ => Raise AssertionError end, w).
Proof.
  unfold MockServerSteps.get_response. rewrite checked_json_run.
  destruct (checked_json w) as [j|e]; [|done]. by destruct j as [| | | |[|]|].
Qed.

(** X12: the mock check is the stricter one: a response that passes
    [I get a mock response] passes [I get a real response]. *)
Theorem mock_check_implies_real_check w :
  (MockServerSteps.get_response w).1 = Ok tt →
  (RealServerSteps.get_response w).1 = Ok tt.
Proof.
  rewrite mock_get_response_run, real_get_response_run. cbn [fst].
  destruct (checked_json w) as [j|e]; [|done]. by destruct j as [| | | |[|]|].
Qed.

Lemma mock_check_implies_real_check_witness :
  (MockServerSteps.get_response
     (set_world_response (Some (Some users_response)) initial_world)).1 = Ok tt
  ∧ (RealServerSteps.get_response
       (set_world_response (Some (Some users_response)) initial_world)).1 = Ok tt.
Proof.
  assert (H : (MockServerSteps.get_response
                 (set_world_response (Some (Some users_response)) initial_world)).1
              = Ok tt) by (by vm_compute).
  split; [exact H|].
  exact (mock_check_implies_real_check _ H).
Defined.

(** X13: [I send a real request] stores in [world.response] what
    [get_users] returned, the response or [None].  When the transport
    raises, the step raises the same exception and [world.response] keeps
    its earlier value, so that a check step run next would judge the
    response of an earlier request. *)
Theorem real_send_request_outcome net w url :
  services_dict w !! "USERS_URL" = Some url →
  match net (length (outbound w)) url with
  | Responds r =>
      (RealServerSteps.send_request net w).1 = Ok tt
      ∧ world_response (RealServerSteps.send_request net w).2
        = Some (if Requests.ok r then Some r else None)
  | Fails e =>
      (RealServerSteps.send_request net w).1 = Raise (RequestException e)
      ∧ world_response (RealServerSteps.send_request net w).2 = world_response w
      ∧ (RealServerSteps.get_response (RealServerSteps.send_request net w).2).1
        = (RealServerSteps.get_response w).1
  end.
Proof.
  intros Hurl. rewrite (send_request_run net w url Hurl).
  destruct (net (length (outbound w)) url) as [r|e]; cbn [classify fst snd]; [done|].
  split; [done|]. split; [done|].
  by rewrite !real_get_response_run.
Qed.

Lemma real_send_request_outcome_witness :
  services_dict (loaded "http://localhost:8000/") !! "USERS_URL"
    = Some "http://localhost:8000/users"
  ∧ world_response (RealServerSteps.send_request (always (Responds users_response))
                      (loaded "http://localhost:8000/")).2
    = Some (Some users_response).
Proof.
  assert (H1 : services_dict (loaded "http://localhost:8000/") !! "USERS_URL"
               = Some "http://localhost:8000/users") by (by vm_compute).
  split; [exact H1|].
  exact (proj2 (real_send_request_outcome (always (Responds users_response))
                  (loaded "http://localhost:8000/") _ H1)).
Defined.

(** X14: after an exchange that ends with a client or server error
    status, [I get a real response] does not fail an assertion: it raises
    [AttributeError], [world.response] being [None]. *)
Theorem real_check_after_failed_fetch net w url r :
  services_dict w !! "USERS_URL" = Some url →
  net (length (outbound w)) url = Responds r →
  (400 ≤ status_code r < 600)%Z →
  (RealServerSteps.get_response (RealServerSteps.send_request net w).2).1
  = Raise (AttributeError "headers").
Proof.
  intros Hurl Hnet Hstatus.
  rewrite (send_request_run net w url Hurl), Hnet. unfold classify.
  rewrite (proj2 (ok_false_spec r) Hstatus).
  by rewrite real_get_response_run.
Qed.

Lemma real_check_after_failed_fetch_witness :
  services_dict (loaded "http://localhost:8000/") !! "USERS_URL"
    = Some "http://localhost:8000/users"
  ∧ (400 ≤ status_code (status_response 404) < 600)%Z
  ∧ (RealServerSteps.get_response
       (RealServerSteps.send_request (always (Responds (status_response 404)))
          (loaded "http://localhost:8000/")).2).1
    = Raise (AttributeError "headers").
Proof.
  assert (H1 : services_dict (loaded "http://localhost:8000/") !! "USERS_URL"
               = Some "http://localhost:8000/users") by (by vm_compute).
  assert (H2 : (400 ≤ status_code (status_response 404) < 600)%Z) by (simpl; lia).
  split; [exact H1|]. split; [exact H2|].
  exact (real_check_after_failed_fetch (always (Responds (status_response 404)))
           (loaded "http://localhost:8000/") _ (status_response 404) H1 eq_refl H2).
Defined.

Lemma mock_send_request_with_port net w port :
  world_mock_server_port w = Some port →
  MockServerSteps.send_request net w
  = let url := MockServerSteps.mock_users_url_of port in
    match classify (net (length (outbound w)) url) with
    | Ok v => (Ok tt, set_world_response (Some v) (set_outbound (outbound w ++ [url]) w))
    | Raise e => (Raise e, set_outbound (outbound w ++ [url]) w)
    end.
Proof.
  intros Hport. rewrite mock_send_request_run, Hport, patch_dict_run.
  unfold mbind, M_bind.
  rewrite (get_users_run net _ (MockServerSteps.mock_users_url_of port)).
  2:{ simpl. apply lookup_union_Some_l, lookup_singleton_eq. }
  cbn zeta. destruct w as [c d o r p].
  by destruct (classify _).
Qed.

(** X15: [I send a mock request] does not depend on the Users URL of
    the module, bound or not: with a port in [world.mock_server_port] the
    one request goes to the mock server's URL for that port, and
    [world.response] receives what [get_users] returned.  A transport
    exception leaves the block and the step as it is, with
    [world.response] untouched.  Without a port the step raises
    [AttributeError] and does nothing. *)
Theorem mock_send_request_outcome net w :
  MockServerSteps.send_request net w
  = match world_mock_server_port w with
    | None => (Raise (AttributeError "mock_server_port"), w)
    | Some port =>
        let url := MockServerSteps.mock_users_url_of port in
        match net (length (outbound w)) url with
        | Responds r =>
            (Ok tt, set_world_response (Some (if Requests.ok r then Some r else None))
                      (set_outbound (outbound w ++ [url]) w))
        | Fails e =>
            (Raise (RequestException e), set_outbound (outbound w ++ [url]) w)
        end
    end.
Proof.
  destruct (world_mock_server_port w) as [port|] eqn:Hport.
  - rewrite (mock_send_request_with_port net w port Hport). cbn zeta.
    by destruct (net _ _).
  - by rewrite mock_send_request_run, Hport.
Qed.

(** X16: the mock scenario from end to end.  After
    [I send a mock request], [I get a mock response] passes exactly when
    the mock server answered with a status outside 400..599, with the
    header [Content-Type: application/json; charset=utf-8] and with the
    body [[]]; after an answer with a status in 400..599 it raises
    [AttributeError]. *)
Theorem mock_scenario net w port r :
  world_mock_server_port w = Some port →
  net (length (outbound w)) (MockServerSteps.mock_users_url_of port) = Responds r →
  let check := (MockServerSteps.get_response (MockServerSteps.send_request net w).2).1 in
  (check = Ok tt
   ↔ ¬ (400 ≤ status_code r < 600)%Z
     ∧ Requests.header "Content-Type" (headers r) = Some json_content_type
     ∧ json r = Some (JList []))
  ∧ ((400 ≤ status_code r < 600)%Z → check = Raise (AttributeError "headers")).
Proof.
  intros Hport Hnet check. subst check.
  rewrite (mock_send_request_with_port net w port Hport). cbn zeta.
  rewrite Hnet. unfold classify.
  pose proof (ok_spec r) as Hok. pose proof (ok_false_spec r) as Hnok.
  rewrite mock_get_response_run. unfold checked_json.
  destruct (Requests.ok r) eqn:Eok; cbn [fst snd world_response set_world_response].
  - split; [|intros Hs; by apply Hnok in Hs].
    rewrite Eok. cbn [negb].
    destruct (Requests.header "Content-Type" (headers r)) as [v|].
    2:{ split; [done|]. by intros (_ & ? & _). }
    destruct (String.eqb_spec json_content_type v) as [<-|Hne]; cbn [negb].
    2:{ split; [done|]. intros (_ & [= ?] & _). by subst. }
    destruct (json r) as [j|].
    2:{ split; [done|]. by intros (_ & _ & ?). }
    destruct j as [| | | |[|]|]; cbn; split; try done;
      try (by intros (_ & _ & ?)).
    intros _. split; [by apply Hok|done].
  - split; [|done]. split; [done|].
    intros (Hs & _). exfalso. apply Hs. by apply Hnok.
Qed.

Lemma mock_scenario_witness :
  world_mock_server_port (mkWorld ∅ ∅ [] None (Some 8081%N)) = Some 8081%N
  ∧ always (Responds users_response) 0 (MockServerSteps.mock_users_url_of 8081)
    = Responds users_response
  ∧ (MockServerSteps.get_response
       (MockServerSteps.send_request (always (Responds users_response))
          (mkWorld ∅ ∅ [] None (Some 8081%N))).2).1 = Ok tt.
Proof.
  split; [reflexivity|]. split; [reflexivity|].
  apply (proj1 (mock_scenario (always (Responds users_response))
                  (mkWorld ∅ ∅ [] None (Some 8081%N)) 8081%N users_response
                  eq_refl eq_refl)).
  split; [simpl; lia|]. split; by vm_compute.
Defined.

(** ** The mock server's URL *)

Lemma string_of_uint_digits d :
  PyStr.all_in "0123456789" (DecimalString.NilEmpty.string_of_uint d) = true.
Proof. induction d; simpl; auto. Qed.

Lemma of_N_digits n : PyStr.all_in "0123456789" (PyStr.of_N n) = true.
Proof.
  unfold PyStr.of_N, DecimalString.NilZero.string_of_uint.
  destruct (N.to_uint n); try apply string_of_uint_digits. reflexivity.
Qed.

Lemma digits_host_chars s :
  PyStr.all_in "0123456789" s = true → free_of "/?#[]" s = true.
Proof.
  induction s as [|c s IH]; [done|]. cbn [PyStr.all_in free_of].
  intros [Hc Hs]%andb_true_iff. rewrite (IH Hs), andb_true_r.
  cbn [PyStr.contains] in Hc.
  repeat (apply orb_true_iff in Hc as [Hc|Hc];
          [apply Ascii.eqb_eq in Hc; subst c; reflexivity|]).
  discriminate.
Qed.

Lemma N_to_uint_nonnil n : N.to_uint n ≠ Decimal.Nil.
Proof. destruct n; [done|]. apply DecimalPos.Unsigned.to_uint_nonnil. Qed.

Lemma of_N_inj n m : PyStr.of_N n = PyStr.of_N m → n = m.
Proof.
  unfold PyStr.of_N. intros H.
  apply DecimalN.Unsigned.to_uint_inj.
  pose proof (DecimalString.NilZero.usu _ (N_to_uint_nonnil n)) as Hn.
  pose proof (DecimalString.NilZero.usu _ (N_to_uint_nonnil m)) as Hm.
  rewrite H in Hn. congruence.
Qed.

Lemma append_cancel_r a b t : a +:+ t = b +:+ t → a = b.
Proof.
  intros H.
  assert (Hlen : String.length a = String.length b).
  { apply (f_equal String.length) in H. rewrite !length_append in H. lia. }
  revert b H Hlen. induction a as [|x a IH]; intros [|y b] H Hlen;
    simpl in Hlen; try done.
  rewrite !append_cons in H. injection H as -> H. f_equal. apply IH; [done|lia].
Qed.

Lemma mock_users_url_shape port :
  MockServerSteps.mock_users_url_of port
  = "http" +:+ "://" +:+ ("localhost:" +:+ PyStr.of_N port) +:+ "" +:+ "/" +:+ "users".
Proof.
  unfold MockServerSteps.mock_users_url_of.
  by rewrite (append_assoc "localhost:").
Qed.

Lemma mock_host_like port : host_like ("localhost:" +:+ PyStr.of_N port) = true.
Proof.
  unfold host_like. rewrite free_of_append.
  by rewrite (digits_host_chars _ (of_N_digits port)).
Qed.

(** X17: the mock server's URL tells the port: different ports give
    different URLs. *)
Theorem mock_users_url_inj p q :
  MockServerSteps.mock_users_url_of p = MockServerSteps.mock_users_url_of q →
  p = q.
Proof.
  unfold MockServerSteps.mock_users_url_of. intros H.
  apply (inj (String.app "http://localhost:")) in H.
  apply append_cancel_r in H. by apply of_N_inj.
Qed.

Lemma mock_users_url_inj_witness :
  MockServerSteps.mock_users_url_of 8081 = MockServerSteps.mock_users_url_of 8081
  ∧ 8081%N = 8081%N.
Proof.
  split; [reflexivity|].
  exact (mock_users_url_inj 8081 8081 eq_refl).
Defined.

(** X18: for every port the mock server's URL is a well-formed http URL:
    it parses to the scheme [http], the host [localhost:<port>] and the
    path [/users], without parameters, query or fragment.  It is the URL
    that [urljoin] gives for the base URL [http://localhost:<port>/], so
    the override stands for the Users URL of that base. *)
Theorem mock_users_url_well_formed port w :
  cache_ok w →
  (Urlparse.urlparse (MockServerSteps.mock_users_url_of port) "" w).1
  = Ok (mkParse "http" ("localhost:" +:+ PyStr.of_N port) "/users" "" "" "")
  ∧ (Urlparse.urljoin ("http://localhost:" +:+ PyStr.of_N port +:+ "/") "users" w).1
    = Ok (MockServerSteps.mock_users_url_of port).
Proof.
  intros Hok. rewrite urlparse_result, urljoin_result by done. split.
  - rewrite mock_users_url_shape.
    by rewrite (urlparse_compute_http "http" _ "" "users")
      by auto using mock_host_like.
  - pose proof (urljoin_compute_http_dir "http" ("localhost:" +:+ PyStr.of_N port) ""
                  (or_introl eq_refl) (mock_host_like port) eq_refl) as H.
    rewrite !(append_assoc "localhost:") in H. rewrite append_nil_l in H.
    unfold MockServerSteps.mock_users_url_of.
    etrans; [exact H|]. f_equal. by rewrite !append_assoc.
Qed.

Lemma mock_users_url_well_formed_witness :
  cache_ok initial_world
  ∧ (Urlparse.urlparse (MockServerSteps.mock_users_url_of 8081) "" initial_world).1
    = Ok (mkParse "http" "localhost:8081" "/users" "" "" "").
Proof.
  split; [exact cache_ok_initial|].
  exact (proj1 (mock_users_url_well_formed 8081 initial_world cache_ok_initial)).
Defined.

(** ** What the outcomes of [get_users] tell *)

(** X19: reading the outcomes of [get_users] backwards.  A returned
    response is the one received from the call just made, and it is [ok]:
    a caller never sees a response with a status in 400..599.  [None]
    always means such a status was received, never that the transport
    failed.  An exception is [NameError] (no [USERS_URL], no call made) or
    the exception of the transport. *)
Theorem get_users_outcomes net w :
  match (Services.get_users net w).1 with
  | Ok (Some v) =>
      ∃ url, services_dict w !! "USERS_URL" = Some url
             ∧ net (length (outbound w)) url = Responds v
             ∧ Requests.ok v = true
             ∧ ¬ (400 ≤ status_code v < 600)%Z
  | Ok None =>
      ∃ url r, services_dict w !! "USERS_URL" = Some url
               ∧ net (length (outbound w)) url = Responds r
               ∧ (400 ≤ status_code r < 600)%Z
  | Raise e =>
      (services_dict w !! "USERS_URL" = None ∧ e = NameError "USERS_URL"
       ∧ outbound (Services.get_users net w).2 = outbound w)
      ∨ ∃ url e', services_dict w !! "USERS_URL" = Some url
                  ∧ net (length (outbound w)) url = Fails e'
                  ∧ e = RequestException e'
  end.
Proof.
  destruct (services_dict w !! "USERS_URL") as [url|] eqn:E.
  - rewrite (get_users_run net w url E). cbn [fst]. unfold classify.
    destruct (net (length (outbound w)) url) as [r|e'] eqn:Hnet.
    + destruct (Requests.ok r) eqn:Hok.
      * exists url. repeat split; try done. by apply ok_spec.
      * exists url, r. repeat split; try done; by apply ok_false_spec.
    + right. by exists url, e'.
  - rewrite (get_users_unbound net w E). cbn [fst snd]. by left.
Qed.

(** X20: the override does not leak.  After [I send a mock request],
    whether it passed or raised, [I send a real request] calls the Users
    URL of the module again: the two steps make two calls, the first to
    the mock server's URL and the second to the Users URL. *)
Theorem override_does_not_leak net w port url :
  world_mock_server_port w = Some port →
  services_dict w !! "USERS_URL" = Some url →
  outbound (RealServerSteps.send_request net (MockServerSteps.send_request net w).2).2
  = outbound w ++ [MockServerSteps.mock_users_url_of port; url].
Proof.
  intros Hport Hurl.
  rewrite (mock_send_request_with_port net w port Hport). cbn zeta.
  destruct (classify (net (length (outbound w)) _)) as [v|e]; cbn [snd].
  all: rewrite (send_request_run net _ url) by done.
  all: destruct (classify _); cbn [snd outbound set_outbound set_world_response].
  all: by rewrite <- app_assoc.
Qed.

Lemma override_does_not_leak_witness :
  world_mock_server_port
    (mkWorld ∅ {["USERS_URL" := "http://example.com/users"]} [] None (Some 8081%N))
    = Some 8081%N
  ∧ outbound (RealServerSteps.send_request (always (Fails ReadTimeout))
                (MockServerSteps.send_request (always (Fails ReadTimeout))
                   (mkWorld ∅ {["USERS_URL" := "http://example.com/users"]} [] None
                      (Some 8081%N))).2).2
    = ["http://localhost:8081/users"; "http://example.com/users"].
Proof.
  split; [reflexivity|].
  exact (override_does_not_leak (always (Fails ReadTimeout))
           (mkWorld ∅ {["USERS_URL" := "http://example.com/users"]} [] None (Some 8081%N))
           8081%N "http://example.com/users" eq_refl (lookup_singleton_eq _ _)).
Defined.

(** ** More on the parse cache and on the segments *)

(** X21: a split that succeeded is remembered: the same call made next
    returns the same value and leaves the process as it is, whatever else
    the cache holds. *)
Theorem urlsplit_hit url scheme w v w1 :
  Urlparse.urlsplit url scheme w = (Ok v, w1) →
  Urlparse.urlsplit url scheme w1 = (Ok v, w1).
Proof.
  unfold Urlparse.urlsplit at 1. unfold mbind, M_bind, gets. cbn [fst snd].
  destruct (parse_cache w !! (url, scheme)) as [v0|] eqn:Hhit.
  - intros [= <- <-]. unfold Urlparse.urlsplit, mbind, M_bind, gets.
    cbn [fst snd]. by rewrite Hhit.
  - unfold lift. intros H.
    assert (Hl : parse_cache w1 !! (url, scheme) = Some v).
    { revert H. case_bool_decide;
        destruct (Urlparse.urlsplit_compute url scheme); cbn; intros [= <- <-];
        cbn; apply lookup_insert_eq. }
    unfold Urlparse.urlsplit, mbind, M_bind, gets. cbn [fst snd]. by rewrite Hl.
Qed.

Lemma urlsplit_hit_witness :
  Urlparse.urlsplit "http://localhost:8000/" "" initial_world
    = (Ok (mkSplit "http" "localhost:8000" "/" "" ""),
       set_parse_cache {[("http://localhost:8000/", "") :=
                           mkSplit "http" "localhost:8000" "/" "" ""]} initial_world)
  ∧ Urlparse.urlsplit "http://localhost:8000/" ""
      (set_parse_cache {[("http://localhost:8000/", "") :=
                           mkSplit "http" "localhost:8000" "/" "" ""]} initial_world)
    = (Ok (mkSplit "http" "localhost:8000" "/" "" ""),
       set_parse_cache {[("http://localhost:8000/", "") :=
                           mkSplit "http" "localhost:8000" "/" "" ""]} initial_world).
Proof.
  assert (H : Urlparse.urlsplit "http://localhost:8000/" "" initial_world
    = (Ok (mkSplit "http" "localhost:8000" "/" "" ""),
       set_parse_cache {[("http://localhost:8000/", "") :=
                           mkSplit "http" "localhost:8000" "/" "" ""]} initial_world))
    by reflexivity.
  split; [exact H|].
  exact (urlsplit_hit _ _ _ _ _ H).
Defined.

Lemma mem_firstn x n l : PyStr.mem x l = false → PyStr.mem x (List.firstn n l) = false.
Proof.
  unfold PyStr.mem. revert n. induction l as [|y l IH]; intros [|n]; simpl; try done.
  intros [Hy Hl]%orb_false_iff. by rewrite Hy, IH.
Qed.

Lemma mem_skipn x n l : PyStr.mem x l = false → PyStr.mem x (List.skipn n l) = false.
Proof.
  unfold PyStr.mem. revert n. induction l as [|y l IH]; intros [|n]; simpl; try done.
  intros [Hy Hl]%orb_false_iff. by apply IH.
Qed.

Lemma mem_app x l1 l2 :
  PyStr.mem x (l1 ++ l2) = PyStr.mem x l1 || PyStr.mem x l2.
Proof. apply existsb_app. Qed.

Lemma collapse_step_mem x l l' :
  Urlparse.collapse_step l = Some l' → PyStr.mem x l = false → PyStr.mem x l' = false.
Proof.
  destruct l as [|prev rest]; [done|]. unfold Urlparse.collapse_step.
  destruct (Urlparse.find_dotdot prev rest 1) as [i|]; [|done].
  intros [= <-] Hl. by rewrite mem_app, mem_firstn, mem_skipn.
Qed.

Lemma collapse_dotdots_mem x n l :
  PyStr.mem x l = false → PyStr.mem x (Urlparse.collapse_dotdots n l) = false.
Proof.
  revert l. induction n as [|n IH]; intros l Hl; simpl; [done|].
  destruct (Urlparse.collapse_step l) as [l'|] eqn:E; [|done].
  eauto using collapse_step_mem.
Qed.

Lemma remove_dots_length n l : (length (Urlparse.remove_dots n l) ≤ length l)%nat.
Proof.
  revert l. induction n as [|n IH]; intros l; simpl; [done|].
  destruct (PyStr.mem "." l) eqn:E; [|done].
  apply list_remove_length in E. specialize (IH (Urlparse.list_remove "." l)). lia.
Qed.

Lemma collapse_dotdots_length n l :
  (length (Urlparse.collapse_dotdots n l) ≤ length l)%nat.
Proof.
  revert l. induction n as [|n IH]; intros l; simpl; [done|].
  destruct (Urlparse.collapse_step l) as [l'|] eqn:E; [|done].
  apply collapse_step_length in E. specialize (IH l'). lia.
Qed.

Lemma replace_last_length (l : list string) x :
  l ≠ [] → length (removelast l ++ [x]) = length l.
Proof.
  intros Hl. rewrite (app_removelast_last "" Hl) at 2.
  by rewrite !length_app.
Qed.

Lemma find_dotdot_found prev post i :
  prev ≠ "" → prev ≠ ".." → post ≠ [] →
  Urlparse.find_dotdot prev (".." :: post) i = Some i.
Proof.
  intros H1 H2 Hpost. destruct post as [|x post]; [done|]. cbn [Urlparse.find_dotdot].
  change (String.eqb ".." "..") with true. unfold PyStr.mem. cbn [existsb].
  apply String.eqb_neq in H1, H2. by rewrite H1, H2.
Qed.

Lemma find_dotdot_finds pre a post prev i :
  a ≠ "" → a ≠ ".." → post ≠ [] →
  Urlparse.find_dotdot prev (pre ++ a :: ".." :: post) i ≠ None.
Proof.
  intros H1 H2 Hpost. revert prev i. induction pre as [|p pre IH]; intros prev i.
  - cbn [app Urlparse.find_dotdot].
    replace (String.eqb a "..") with false by (symmetry; by apply String.eqb_neq).
    cbn [andb]. destruct post as [|x post]; [done|].
    change (String.eqb ".." "..") with true. unfold PyStr.mem. cbn [existsb].
    apply String.eqb_neq in H1, H2. by rewrite H1, H2.
  - change ((p :: pre) ++ a :: ".." :: post) with (p :: (pre ++ a :: ".." :: post)).
    specialize (IH p (S i)).
    destruct (pre ++ a :: ".." :: post) as [|x tl] eqn:E; [by destruct pre|].
    cbn [Urlparse.find_dotdot]. by case_match.
Qed.

(** Where [collapse_step] finds nothing, no ['..'] is left that has a
    name before it and a segment after it. *)
Lemma collapse_step_None l pre a post :
  Urlparse.collapse_step l = None →
  l = pre ++ a :: ".." :: post →
  a ≠ "" → a ≠ ".." → post = [].
Proof.
  intros Hnone -> H1 H2. destruct post as [|x post]; [done|]. exfalso.
  unfold Urlparse.collapse_step in Hnone. destruct pre as [|p pre].
  - cbn [app] in Hnone. by rewrite (find_dotdot_found a (x :: post) 1) in Hnone.
  - change ((p :: pre) ++ a :: ".." :: x :: post)
      with (p :: (pre ++ a :: ".." :: x :: post)) in Hnone.
    pose proof (find_dotdot_finds pre a (x :: post) p 1 H1 H2) as Hf.
    destruct (Urlparse.find_dotdot p (pre ++ a :: ".." :: x :: post) 1) eqn:E;
      [simpl in Hnone; by rewrite E in Hnone | by apply Hf].
Qed.

Lemma list_remove_elem_of x y l : y ∈ Urlparse.list_remove x l → y ∈ l.
Proof.
  induction l as [|z l IH]; simpl; [done|].
  destruct (String.eqb z x); rewrite !elem_of_cons; [by right|].
  intros [->|Hy]; [by left | right; by apply IH].
Qed.

Lemma remove_dots_elem_of y n l : y ∈ Urlparse.remove_dots n l → y ∈ l.
Proof.
  revert l. induction n as [|n IH]; intros l; simpl; [done|].
  destruct (PyStr.mem "." l); [|done].
  intros H. by apply IH, list_remove_elem_of in H.
Qed.

Lemma collapse_step_elem_of y l l' :
  Urlparse.collapse_step l = Some l' → y ∈ l' → y ∈ l.
Proof.
  destruct l as [|prev rest]; [done|]. unfold Urlparse.collapse_step.
  destruct (Urlparse.find_dotdot prev rest 1) as [i|]; [|done].
  intros [= <-]. rewrite elem_of_app.
  intros [H|H]; [by apply (subseteq_take (i - 1)) | by apply (subseteq_drop (i + 1))].
Qed.

Lemma collapse_dotdots_elem_of y n l : y ∈ Urlparse.collapse_dotdots n l → y ∈ l.
Proof.
  revert l. induction n as [|n IH]; intros l; simpl; [done|].
  destruct (Urlparse.collapse_step l) as [l'|] eqn:E; [|done].
  intros H. eauto using collapse_step_elem_of.
Qed.

(** X22: what [urljoin] makes of the segments.  Both loops run to their
    end: no ['.'] is left, and no ['..'] is left that has a name before
    it (a segment other than [''] and ['..']) and a segment after it.
    Nothing is added: the result is no longer than the list it started
    from, and each of its segments is a segment of that list or the empty
    segment. *)
Theorem resolve_segments_resolved segments :
  let resolved := Urlparse.resolve_segments segments in
  PyStr.mem "." resolved = false
  ∧ (∀ pre a post, resolved = pre ++ a :: ".." :: post →
                   a ≠ "" → a ≠ ".." → post = [])
  ∧ (length resolved ≤ length segments)%nat
  ∧ (∀ s, s ∈ resolved → s = "" ∨ s ∈ segments).
Proof.
  cbn zeta. unfold Urlparse.resolve_segments.
  set (l1 := if bool_decide (last segments = Some ".")
             then removelast segments ++ [""] else segments).
  assert (Hl1 : length l1 = length segments).
  { subst l1. case_bool_decide as Hlast; [|done].
    apply replace_last_length. by intros ->. }
  assert (He1 : ∀ s, s ∈ l1 → s = "" ∨ s ∈ segments).
  { subst l1. intros s. case_bool_decide as Hlast; [|by right].
    rewrite elem_of_app, list_elem_of_singleton. intros [H|H]; [right|by left].
    apply list_elem_of_In. apply list_elem_of_In in H.
    assert (Hne : segments ≠ []) by (by intros ->).
    rewrite (app_removelast_last "" Hne). apply in_or_app. by left. }
  set (l2 := Urlparse.remove_dots (length l1) l1).
  assert (Hl2 : (length l2 ≤ length l1)%nat) by apply remove_dots_length.
  assert (Hm2 : PyStr.mem "." l2 = false) by (by apply remove_dots_complete).
  set (l3 := Urlparse.collapse_dotdots (length l2) l2).
  assert (Hl3 : (length l3 ≤ length l2)%nat) by apply collapse_dotdots_length.
  assert (Hm3 : PyStr.mem "." l3 = false) by (by apply collapse_dotdots_mem).
  assert (Hc3 : Urlparse.collapse_step l3 = None) by (by apply collapse_dotdots_complete).
  assert (He3 : ∀ s, s ∈ l3 → s = "" ∨ s ∈ segments).
  { intros s H. by apply He1, (remove_dots_elem_of _ (length l1)),
      (collapse_dotdots_elem_of _ (length l2)). }
  case_bool_decide as H1.
  - rewrite H1. rewrite H1 in Hl3. simpl in *.
    split; [done|]. split; [|split; [lia|]].
    + intros pre a post Heq. destruct pre as [|p [|p' pre]]; simplify_eq/=; try done.
      by destruct pre.
    + intros s. rewrite !elem_of_cons, elem_of_nil. intros [->|[->|[]]]; by left.
  - case_bool_decide as H2; cbn [andb];
      [|split; [done|]; split; [by eauto using collapse_step_None|]; split; [lia|done]].
    case_bool_decide as H3;
      [|split; [done|]; split; [by eauto using collapse_step_None|]; split; [lia|done]].
    split; [by rewrite mem_app, mem_firstn|]. split; [|split].
    + intros pre a post Heq Ha1 Ha2.
      destruct (decide (post = [])) as [|Hpost]; [done|]. exfalso.
      destruct (exists_last Hpost) as (post' & x & ->).
      assert (Hfirst : List.firstn (length l3 - 2) l3 = pre ++ a :: ".." :: post').
      { change (pre ++ a :: ".." :: post' ++ [x])
          with (pre ++ (a :: ".." :: post') ++ [x]) in Heq.
        rewrite app_assoc in Heq. by apply app_inj_tail in Heq as [-> _]. }
      assert (Hskip : List.skipn (length l3 - 2) l3 ≠ []).
      { intros Hs. apply (f_equal length) in Hs. rewrite length_skipn in Hs.
        simpl in Hs. lia. }
      pose proof (firstn_skipn (length l3 - 2) l3) as Hsplit.
      rewrite Hfirst in Hsplit.
      assert (Hno : post' ++ List.skipn (length l3 - 2) l3 = []).
      { apply (collapse_step_None l3 pre a); [done| |done..].
        etrans; [symmetry; exact Hsplit|]. by rewrite <- app_assoc. }
      apply app_eq_nil in Hno as [_ Hno]. done.
    + rewrite length_app, length_firstn. simpl. lia.
    + intros s. rewrite elem_of_app, list_elem_of_singleton.
      intros [H|H]; [|by left]. apply He3.
      by apply (subseteq_take (length l3 - 2)).
Qed.
